(** * Inventory reservation and stock ledger of the database service

    A shallow embedding of [src/app.py]: the request handlers of the
    FastAPI application are Rocq functions over an explicit database
    state, and the properties of the reservation coordinator are
    theorems about those functions.

    Conventions of the embedding.
    - A table with a primary key is a finite map from the key to the
      row ([gmap string _]).
    - The SQLAlchemy session is a pair of database states: the last
      committed one and the one the open transaction works on.
    - A handler is a computation in a state-and-exception monad over
      the session; an endpoint runs it on a fresh session and keeps the
      committed state ([request], after [get_db]).
    - Quantities are mathematical integers: Python integers are
      unbounded, and the range of the [Integer] column is not modelled.
    - A reservation line is the dict [{"sku": s, "qty": n}] with a
      string [s] and an integer [n], on which [int(it.get("qty"))] is
      [n]. *)

From Stdlib Require Import ZArith String List Lia.
From stdpp Require Import base option gmap strings list fin_maps.

Local Open Scope Z_scope.
Local Open Scope string_scope.

(** ** JSON values carried by the JSON columns and request bodies *)

#[local] Set Warnings "-register-all".

Inductive json : Type :=
| JNull
| JBool (b : bool)
| JNum (n : Z)
| JStr (s : string)
| JArr (xs : list json)
| JObj (kvs : list (string * json)).

(** ** Data model *)

(** One element of [items] of a reservation. *)
Record Line : Type := mkLine { sku : string; qty : Z }.

(** [class InventoryReservationIn(BaseModel)]: id, orderId, items, status.
    A row of [inventory_reservations] has the same four columns. *)
Record InventoryReservationIn : Type := mkReservation {
  res_id : string;
  res_orderId : string;
  res_items : list Line;
  res_status : string
}.

(** [class InventoryIn(BaseModel)] declares the same four fields. *)
Record InventoryIn : Type := mkInventoryIn {
  inv_id : string;
  inv_orderId : string;
  inv_items : list json;
  inv_status : string
}.

(** The tables: [inventory] (sku -> quantity), [inventory_reservations]
    (id -> row) and [orders] (id -> row, a row being the dict of its
    columns). *)
Record DB : Type := mkDB {
  inventory : gmap string Z;
  inventory_reservations : gmap string InventoryReservationIn;
  orders : gmap string (gmap string json)
}.

Definition set_inventory (f : gmap string Z -> gmap string Z) (db : DB) : DB :=
  {| inventory := f (inventory db);
     inventory_reservations := inventory_reservations db;
     orders := orders db |}.

Definition set_reservations
    (f : gmap string InventoryReservationIn -> gmap string InventoryReservationIn)
    (db : DB) : DB :=
  {| inventory := inventory db;
     inventory_reservations := f (inventory_reservations db);
     orders := orders db |}.

Definition set_orders
    (f : gmap string (gmap string json) -> gmap string (gmap string json))
    (db : DB) : DB :=
  {| inventory := inventory db;
     inventory_reservations := inventory_reservations db;
     orders := f (orders db) |}.

(** ** Exceptions *)

Inductive sql_error : Type :=
| IntegrityError (table key : string) (* duplicate key, or NULL in a NOT NULL column *)
| DataError (table column : string)   (* a value of the wrong type *)
| CompileError (table : string).      (* "Unconsumed column names" *)

Inductive exn : Type :=
| HTTPException (status_code : Z) (detail : string)
| SQLAlchemyError (e : sql_error)
| AttributeError (attr : string)
| RequestValidationError (missing : list string).

(** [str(e)] of a storage error, abbreviated to the name of its class. *)
Definition str_sql_error (e : sql_error) : string :=
  match e with
  | IntegrityError _ _ => "IntegrityError"
  | DataError _ _ => "DataError"
  | CompileError _ => "CompileError"
  end.

(** The errors of the coordinator, as the handlers raise them. *)
Definition SkuNotFound (s : string) : exn :=
  HTTPException 409 ("SKU " +:+ s +:+ " not found").
Definition InsufficientStock (s : string) : exn :=
  HTTPException 409 ("Insufficient stock for " +:+ s).
Definition ReservationNotFound : exn :=
  HTTPException 404 "reservation not found".
Definition StorageFailure (what : string) (e : sql_error) : exn :=
  HTTPException 500 (what +:+ str_sql_error e).

(** ** The session monad *)

Inductive outcome (A : Type) : Type :=
| Return (a : A)
| Raise (e : exn).
Arguments Return {A} a.
Arguments Raise {A} e.

Record Session : Type := mkSession { committed : DB; working : DB }.

Definition M (A : Type) : Type := Session -> outcome A * Session.

Definition ret {A} (a : A) : M A := fun s => (Return a, s).
Definition raise {A} (e : exn) : M A := fun s => (Raise e, s).
Definition bind {A B} (m : M A) (k : A -> M B) : M B :=
  fun s => match m s with
           | (Return a, s') => k a s'
           | (Raise e, s') => (Raise e, s')
           end.

Notation "x <- m ;; k" := (bind m (fun x => k))
  (at level 100, m at next level, right associativity).
Notation "m ;;; k" := (bind m (fun _ => k))
  (at level 100, right associativity).

(** [for x in l: body(x)] *)
Fixpoint for_each {A} (body : A -> M unit) (l : list A) : M unit :=
  match l with
  | [] => ret tt
  | x :: l' => body x ;;; for_each body l'
  end.

(** [db.execute] of a statement that cannot fail, on the open transaction. *)
Definition execute (f : DB -> DB) : M unit :=
  fun s => (Return tt, {| committed := committed s; working := f (working s) |}).

(** A query on the open transaction. *)
Definition query {A} (f : DB -> A) : M A :=
  fun s => (Return (f (working s)), s).

Definition commit : M unit :=
  fun s => (Return tt, {| committed := working s; working := working s |}).

Definition rollback : M unit :=
  fun s => (Return tt, {| committed := committed s; working := committed s |}).

(** [with db.begin(): body] commits when the body ends normally and
    rolls back, re-raising, when it raises. *)
Definition with_begin {A} (body : M A) : M A :=
  fun s => match body s with
           | (Return a, s') => (Return a, snd (commit s'))
           | (Raise e, s') => (Raise e, snd (rollback s'))
           end.

(** [try: body / except HTTPException: raise / except SQLAlchemyError as e:
    db.rollback(); raise HTTPException(500, what + str(e))].  Any other
    exception propagates. *)
Definition try_except_sql {A} (what : string) (body : M A) : M A :=
  fun s => match body s with
           | (Raise (SQLAlchemyError e), s') =>
               (Raise (StorageFailure what e), snd (rollback s'))
           | r => r
           end.

(** [get_db]: a fresh session for the request, closed at its end; what
    was not committed is lost. *)
Definition request {A} (handler : M A) (db : DB) : outcome A * DB :=
  let '(r, s) := handler {| committed := db; working := db |} in
  (r, committed s).

(** ** Statements *)

(** [_lock_and_get_inventory_row]: [SELECT ... WHERE sku = :sku FOR UPDATE],
    the quantity of the row or [None]. *)
Definition _lock_and_get_inventory_row (s : string) : M (option Z) :=
  query (fun db => inventory db !! s).

(** [UPDATE inventory SET quantity = quantity + :delta WHERE sku = :sku];
    no row, no effect. *)
Definition adjust (s : string) (delta : Z) : M unit :=
  execute (set_inventory (alter (fun q => q + delta) s)).

(** [INSERT INTO inventory (sku, quantity)]. *)
Definition inventory_insert (s : string) (q : Z) : M unit :=
  fun ss => match inventory (working ss) !! s with
            | Some _ => (Raise (SQLAlchemyError (IntegrityError "inventory" s)), ss)
            | None => execute (set_inventory (insert s q)) ss
            end.

(** [DELETE FROM inventory WHERE sku = :sku]. *)
Definition inventory_delete (s : string) : M unit :=
  execute (set_inventory (delete s)).

(** [SELECT ... FROM inventory_reservations WHERE id = :rid]. *)
Definition reservations_select (rid : string) : M (option InventoryReservationIn) :=
  query (fun db => inventory_reservations db !! rid).

(** [inventory_reservations.insert()] with the values of [payload.dict()]. *)
Definition reservations_insert (p : InventoryReservationIn) : M unit :=
  fun ss => match inventory_reservations (working ss) !! res_id p with
            | Some _ =>
                (Raise (SQLAlchemyError
                          (IntegrityError "inventory_reservations" (res_id p))), ss)
            | None => execute (set_reservations (insert (res_id p) p)) ss
            end.

(** [inventory_reservations.update().where(id == rid)] with the values of
    [payload.dict()]:
    every column of the row, the key included, is overwritten. *)
Definition reservations_update (rid : string) (p : InventoryReservationIn) : M unit :=
  fun ss =>
    match inventory_reservations (working ss) !! rid with
    | None => (Return tt, ss)
    | Some _ =>
        if decide (res_id p = rid) then
          execute (set_reservations (insert rid p)) ss
        else
          match inventory_reservations (working ss) !! res_id p with
          | Some _ =>
              (Raise (SQLAlchemyError
                        (IntegrityError "inventory_reservations" (res_id p))), ss)
          | None =>
              execute (set_reservations (fun t => <[res_id p := p]> (delete rid t))) ss
          end
    end.

(** [DELETE FROM inventory_reservations WHERE id = :rid]. *)
Definition reservations_delete (rid : string) : M unit :=
  execute (set_reservations (delete rid)).

(** ** Reservation coordinator *)

(** Body of the first loop of [create_reservation]. *)
Definition check_line (it : Line) : M unit :=
  row <- _lock_and_get_inventory_row (sku it) ;;
  match row with
  | None => raise (SkuNotFound (sku it))
  | Some current_qty =>
      if decide (current_qty < qty it)
      then raise (InsufficientStock (sku it))
      else ret tt
  end.

(** Body of the second loop of [create_reservation]. *)
Definition decrement_line (it : Line) : M unit :=
  adjust (sku it) (- qty it).

(** [POST /inventory/reserve] *)
Definition create_reservation (payload : InventoryReservationIn)
  : M InventoryReservationIn :=
  try_except_sql "DB error reserving inventory: "
    (with_begin
       (for_each check_line (res_items payload) ;;;
        for_each decrement_line (res_items payload) ;;;
        reservations_insert payload) ;;;
     ret payload).

(** Body of the restore loop shared by [update_reservation] and
    [delete_reservation]. *)
Definition restore_line (it : Line) : M unit :=
  row <- _lock_and_get_inventory_row (sku it) ;;
  match row with
  | None => inventory_insert (sku it) (qty it)
  | Some _ => adjust (sku it) (qty it)
  end.

(** [GET /inventory/reserve/{rid}] *)
Definition get_reservation (rid : string) : M InventoryReservationIn :=
  r <- reservations_select rid ;;
  match r with
  | None => raise ReservationNotFound
  | Some row => ret row
  end.

(** [PUT /inventory/reserve/{rid}] *)
Definition update_reservation (rid : string) (payload : InventoryReservationIn)
  : M InventoryReservationIn :=
  try_except_sql "DB error updating reservation: "
    (with_begin
       (existing <- reservations_select rid ;;
        match existing with
        | None => raise ReservationNotFound
        | Some existing_obj =>
            let prev_status := res_status existing_obj in
            let new_status := res_status payload in
            (if decide (prev_status = "reserved" /\ new_status = "released")
             then for_each restore_line (res_items existing_obj)
             else ret tt) ;;;
            reservations_update rid payload
        end) ;;;
     ret payload).

(** [DELETE /inventory/reserve/{rid}] *)
Definition delete_reservation (rid : string) : M unit :=
  try_except_sql "DB error deleting reservation: "
    (with_begin
       (existing <- reservations_select rid ;;
        match existing with
        | Some existing_obj =>
            (if decide (res_status existing_obj = "reserved")
             then for_each restore_line (res_items existing_obj)
             else ret tt) ;;;
            reservations_delete rid
        | None => ret tt
        end)).

(** [DELETE /inventory/{sku}] *)
Definition delete_inventory (s : string) : M unit :=
  inventory_delete s ;;; commit.

(** ** The ledger as a pure function of the lines

    What the three loops of the coordinator compute, as functions of the
    [inventory] table alone; the lemmas below relate them to the loops. *)

(** First loop of [create_reservation]: the exception of the first line
    that fails its check, if any. *)
Fixpoint validate (inv : gmap string Z) (items : list Line) : option exn :=
  match items with
  | [] => None
  | it :: rest =>
      match inv !! sku it with
      | None => Some (SkuNotFound (sku it))
      | Some current_qty =>
          if decide (current_qty < qty it)
          then Some (InsufficientStock (sku it))
          else validate inv rest
      end
  end.

(** Second loop of [create_reservation]. *)
Definition decrement_all (inv : gmap string Z) (items : list Line) : gmap string Z :=
  foldl (fun m it => alter (fun q => q + - qty it) (sku it) m) inv items.

(** Restore loop of [update_reservation] and [delete_reservation]. *)
Definition restore_all (inv : gmap string Z) (items : list Line) : gmap string Z :=
  foldl (fun m it => match m !! sku it with
                     | None => <[sku it := qty it]> m
                     | Some _ => alter (fun q => q + qty it) (sku it) m
                     end) inv items.

(** The restore of one line in the words of the specification: an absent
    row is recreated with the line's quantity, otherwise the quantity is
    added to the stored one. *)
Definition spec_restore_line (inv : gmap string Z) (it : Line) : gmap string Z :=
  match inv !! sku it with
  | None => <[sku it := qty it]> inv
  | Some current => <[sku it := current + qty it]> inv
  end.

(** Total quantity the lines [items] ask of SKU [k]. *)
Definition sum_qty (k : string) (items : list Line) : Z :=
  foldr (fun it acc => if decide (sku it = k) then qty it + acc else acc) 0 items.

(** A line passes the availability check against [inv]. *)
Definition line_available (inv : gmap string Z) (it : Line) : Prop :=
  exists current, inv !! sku it = Some current /\ qty it <= current.

(** ** Request models

    FastAPI builds the declared pydantic model from the JSON body of the
    request and answers with a validation error, without calling the
    handler, when a required field is missing or ill-typed.  The
    coercions of pydantic between JSON types are not modelled: a field
    is accepted when its value has the declared JSON type. *)

Abbreviation dict := (gmap string json).

(** [payload.name]: the value of a declared field, [AttributeError]
    for any other name. *)
Definition getattr (fields : dict) (name : string) : M json :=
  match fields !! name with
  | Some v => ret v
  | None => raise (AttributeError name)
  end.

(** [InventoryIn.dict()] *)
Definition InventoryIn_dict (p : InventoryIn) : dict :=
  <["id" := JStr (inv_id p)]>
    (<["orderId" := JStr (inv_orderId p)]>
       (<["items" := JArr (inv_items p)]>
          (<["status" := JStr (inv_status p)]> ∅))).

Definition InventoryIn_validate (body : dict) : outcome InventoryIn :=
  match body !! "id", body !! "orderId", body !! "items", body !! "status" with
  | Some (JStr i), Some (JStr o), Some (JArr its), Some (JStr st) =>
      Return (mkInventoryIn i o its st)
  | _, _, _, _ => Raise (RequestValidationError ["id"; "orderId"; "items"; "status"])
  end.

(** [class OrderIn(BaseModel)].  [id], [items], [total] and [status] are
    required; the other fields are optional, [None] standing for a field
    the request did not set (it is then absent from
    [dict(exclude_unset=True)]). *)
Record OrderIn : Type := mkOrderIn {
  o_id : string;
  o_userId : option json;
  o_address : option json;
  o_items : list json;
  o_total : Z;
  o_currency : option json;
  o_status : string;
  o_refund_attempt : option json;
  o_payment_refund_status : option json
}.

Definition set_field (k : string) (v : option json) (d : dict) : dict :=
  match v with
  | Some x => <[k := x]> d
  | None => d
  end.

(** [payload.dict(exclude_unset=True)] *)
Definition OrderIn_dict_exclude_unset (p : OrderIn) : dict :=
  <["id" := JStr (o_id p)]>
    (<["items" := JArr (o_items p)]>
       (<["total" := JNum (o_total p)]>
          (<["status" := JStr (o_status p)]>
             (set_field "userId" (o_userId p)
                (set_field "address" (o_address p)
                   (set_field "currency" (o_currency p)
                      (set_field "refund_attempt" (o_refund_attempt p)
                         (set_field "payment_refund_status"
                            (o_payment_refund_status p) ∅)))))))).

Definition optional_str (v : option json) : bool :=
  match v with
  | None | Some JNull | Some (JStr _) => true
  | Some _ => false
  end.

Definition optional_dict (v : option json) : bool :=
  match v with
  | None | Some JNull | Some (JObj _) => true
  | Some _ => false
  end.

Definition OrderIn_validate (body : dict) : outcome OrderIn :=
  match body !! "id", body !! "items", body !! "total", body !! "status" with
  | Some (JStr i), Some (JArr its), Some (JNum t), Some (JStr st) =>
      if optional_str (body !! "userId") && optional_dict (body !! "address")
         && optional_str (body !! "currency")
         && optional_dict (body !! "refund_attempt")
         && optional_str (body !! "payment_refund_status")
      then Return {| o_id := i; o_userId := body !! "userId";
                     o_address := body !! "address"; o_items := its;
                     o_total := t; o_currency := body !! "currency";
                     o_status := st;
                     o_refund_attempt := body !! "refund_attempt";
                     o_payment_refund_status := body !! "payment_refund_status" |}
      else Raise (RequestValidationError
                    ["userId"; "address"; "currency"; "refund_attempt";
                     "payment_refund_status"])
  | _, _, _, _ => Raise (RequestValidationError ["id"; "items"; "total"; "status"])
  end.

(** ** Statements with keyword values

    [table.update()] and [table.insert()] with the values of a dict [d]
    name columns by the keys of [d]; SQLAlchemy refuses a key that is not a
    column of the table when it compiles the statement. *)

Definition inventory_columns : list string := ["sku"; "quantity"].

Definition orders_columns : list string :=
  ["id"; "userId"; "address"; "items"; "total"; "currency"; "status";
   "refund_attempt"; "payment_refund_status"].

Definition orders_not_null : list string := ["id"; "items"; "total"; "status"].

Definition is_null (v : option json) : bool :=
  match v with
  | Some JNull => true
  | _ => false
  end.

Definition consumed (columns : list string) (values : dict) : Prop :=
  map_Forall (fun k _ => k ∈ columns) values.

Definition column_str (table column : string) (v : option json) : M string :=
  match v with
  | Some (JStr s) => ret s
  | Some JNull | None => raise (SQLAlchemyError (IntegrityError table column))
  | Some _ => raise (SQLAlchemyError (DataError table column))
  end.

Definition column_int (table column : string) (v : option json) : M Z :=
  match v with
  | Some (JNum n) => ret n
  | Some JNull | None => raise (SQLAlchemyError (IntegrityError table column))
  | Some _ => raise (SQLAlchemyError (DataError table column))
  end.

(** [inventory.insert()] with the values of [values] *)
Definition inventory_insert_values (values : dict) : M unit :=
  if decide (consumed inventory_columns values) then
    s <- column_str "inventory" "sku" (values !! "sku") ;;
    q <- column_int "inventory" "quantity" (values !! "quantity") ;;
    inventory_insert s q
  else raise (SQLAlchemyError (CompileError "inventory")).

(** [inventory.update().where(inventory.c.sku == key)] with [values];
    a key that is not a string matches no row. *)
Definition inventory_update_values (key : json) (values : dict) : M unit :=
  if decide (consumed inventory_columns values) then
    row <- query (fun db => match key with
                            | JStr k => pair k <$> inventory db !! k
                            | _ => None
                            end) ;;
    match row with
    | None => ret tt
    | Some (k, current) =>
        k' <- match values !! "sku" with
              | None => ret k
              | v => column_str "inventory" "sku" v
              end ;;
        q' <- match values !! "quantity" with
              | None => ret current
              | v => column_int "inventory" "quantity" v
              end ;;
        taken <- query (fun db => inventory db !! k') ;;
        if decide (k' <> k /\ is_Some taken)
        then raise (SQLAlchemyError (IntegrityError "inventory" k'))
        else execute (set_inventory (fun t => <[k' := q']> (delete k t)))
    end
  else raise (SQLAlchemyError (CompileError "inventory")).

(** [orders.update().where(orders.c.id == oid)] with [values] *)
Definition orders_update (oid : string) (values : dict) : M unit :=
  if decide (consumed orders_columns values) then
    row <- query (fun db => orders db !! oid) ;;
    match row with
    | None => ret tt
    | Some old =>
        let new := values ∪ old in
        if existsb (fun c => is_null (new !! c)) orders_not_null
        then raise (SQLAlchemyError (IntegrityError "orders" "NOT NULL"))
        else
          k' <- column_str "orders" "id" (new !! "id") ;;
          taken <- query (fun db => orders db !! k') ;;
          if decide (k' <> oid /\ is_Some taken)
          then raise (SQLAlchemyError (IntegrityError "orders" k'))
          else execute (set_orders (fun t => <[k' := new]> (delete oid t)))
    end
  else raise (SQLAlchemyError (CompileError "orders")).

(** ** Orders *)

(** [PUT /orders/{oid}]: the handler. *)
Definition update_order (oid : string) (payload : OrderIn) : M dict :=
  try_except_sql "DB error updating order: "
    (merged <- with_begin
       (existing <- query (fun db => orders db !! oid) ;;
        match existing with
        | None => raise (HTTPException 404 "order not found")
        | Some existing_obj =>
            let incoming := OrderIn_dict_exclude_unset payload in
            let merged := incoming ∪ existing_obj in
            orders_update oid merged ;;;
            ret merged
        end) ;;
     ret merged).

(** [PUT /orders/{oid}]: the endpoint, from the JSON body. *)
Definition put_order (oid : string) (body : dict) (db : DB) : outcome dict * DB :=
  match OrderIn_validate body with
  | Raise e => (Raise e, db)
  | Return payload => request (update_order oid payload) db
  end.

(** ** Inventory CRUD *)

(** [POST /inventory]: the handler. *)
Definition create_inventory (payload : InventoryIn) : M InventoryIn :=
  s <- getattr (InventoryIn_dict payload) "sku" ;;
  existing <- query (fun db => match s with
                               | JStr k => inventory db !! k
                               | _ => None
                               end) ;;
  match existing with
  | Some _ =>
      s' <- getattr (InventoryIn_dict payload) "sku" ;;
      q <- getattr (InventoryIn_dict payload) "quantity" ;;
      inventory_update_values s' (<["quantity" := q]> ∅)
  | None => inventory_insert_values (InventoryIn_dict payload)
  end ;;;
  commit ;;;
  ret payload.

(** [PUT /inventory/{sku}]: the handler. *)
Definition update_inventory (s : string) (payload : InventoryIn) : M InventoryIn :=
  inventory_update_values (JStr s) (InventoryIn_dict payload) ;;;
  commit ;;;
  ret payload.

(** [POST /inventory] and [PUT /inventory/{sku}]: the endpoints. *)
Definition post_inventory (body : dict) (db : DB) : outcome InventoryIn * DB :=
  match InventoryIn_validate body with
  | Raise e => (Raise e, db)
  | Return payload => request (create_inventory payload) db
  end.

Definition put_inventory (s : string) (body : dict) (db : DB)
  : outcome InventoryIn * DB :=
  match InventoryIn_validate body with
  | Raise e => (Raise e, db)
  | Return payload => request (update_inventory s payload) db
  end.

(** ** Concurrent reservation attempts

    Several [create_reservation] requests run at once against one
    database, each in its own transaction, one statement at a time in
    any order.  What the storage engine contributes is taken from the
    statements the handler issues:
    - [SELECT ... FOR UPDATE] and [UPDATE] of a row wait while another
      open transaction holds the lock of that row, then take the lock
      and see the last committed version of the row (or the version the
      transaction wrote itself);
    - what a transaction writes is visible to the others once it
      commits; commit and rollback release its locks;
    - an [INSERT] of a key waits while another open transaction has
      inserted the same key. *)

Inductive PC : Type :=
| Checking (rest : list Line)      (* first loop, lines still to check *)
| Decrementing (rest : list Line)  (* second loop, lines still to apply *)
| Inserting                        (* the reservation row *)
| Committing                       (* end of [with db.begin()] *)
| Done (r : outcome InventoryReservationIn).

Record Txn : Type := mkTxn {
  tx_payload : InventoryReservationIn;
  tx_pc : PC;
  tx_locks : list string;                        (* inventory rows locked *)
  tx_inventory : gmap string Z;                  (* rows written, uncommitted *)
  tx_reservation : option InventoryReservationIn (* row inserted, uncommitted *)
}.

Definition begin_txn (p : InventoryReservationIn) : Txn :=
  mkTxn p (Checking (res_items p)) [] ∅ None.

Definition goto (pc : PC) (t : Txn) : Txn :=
  mkTxn (tx_payload t) pc (tx_locks t) (tx_inventory t) (tx_reservation t).

Definition lock (k : string) (t : Txn) : Txn :=
  mkTxn (tx_payload t) (tx_pc t) (k :: tx_locks t) (tx_inventory t)
        (tx_reservation t).

Definition write (k : string) (q : Z) (t : Txn) : Txn :=
  mkTxn (tx_payload t) (tx_pc t) (tx_locks t) (<[k := q]> (tx_inventory t))
        (tx_reservation t).

(** The end of a transaction: the answer of the request is [r]; locks
    and uncommitted rows are gone. *)
Definition finish (r : outcome InventoryReservationIn) (t : Txn) : Txn :=
  mkTxn (tx_payload t) (Done r) [] ∅ None.

Definition locked_elsewhere (others : list Txn) (k : string) : bool :=
  existsb (fun t => bool_decide (k ∈ tx_locks t)) others.

Definition inserted_elsewhere (others : list Txn) (rid : string) : bool :=
  existsb (fun t => bool_decide (res_id <$> tx_reservation t = Some rid)) others.

(** The row of SKU [k] as transaction [t] sees it. *)
Definition view (G : DB) (t : Txn) (k : string) : option Z :=
  (tx_inventory t ∪ inventory G) !! k.

(** One statement of transaction [t], the committed database being [G]
    and [others] the other transactions; [None] when [t] has to wait or
    has ended. *)
Definition txn_step (G : DB) (others : list Txn) (t : Txn) : option (DB * Txn) :=
  match tx_pc t with
  | Checking [] => Some (G, goto (Decrementing (res_items (tx_payload t))) t)
  | Checking (it :: rest) =>
      match view G t (sku it) with
      | None => Some (G, finish (Raise (SkuNotFound (sku it))) t)
      | Some current_qty =>
          if locked_elsewhere others (sku it) then None
          else if decide (current_qty < qty it)
          then Some (G, finish (Raise (InsufficientStock (sku it))) t)
          else Some (G, goto (Checking rest) (lock (sku it) t))
      end
  | Decrementing [] => Some (G, goto Inserting t)
  | Decrementing (it :: rest) =>
      match view G t (sku it) with
      | None => Some (G, goto (Decrementing rest) t)
      | Some current_qty =>
          if locked_elsewhere others (sku it) then None
          else Some (G, goto (Decrementing rest)
                          (write (sku it) (current_qty + - qty it)
                             (lock (sku it) t)))
      end
  | Inserting =>
      let p := tx_payload t in
      if inserted_elsewhere others (res_id p) then None
      else match inventory_reservations G !! res_id p with
           | Some _ =>
               Some (G, finish
                          (Raise (StorageFailure "DB error reserving inventory: "
                                    (IntegrityError "inventory_reservations"
                                       (res_id p)))) t)
           | None =>
               Some (G, mkTxn p Committing (tx_locks t) (tx_inventory t) (Some p))
           end
  | Committing =>
      let G' := {| inventory := tx_inventory t ∪ inventory G;
                   inventory_reservations :=
                     match tx_reservation t with
                     | Some p => <[res_id p := p]> (inventory_reservations G)
                     | None => inventory_reservations G
                     end;
                   orders := orders G |} in
      Some (G', finish (Return (tx_payload t)) t)
  | Done _ => None
  end.

Record Sys : Type := mkSys { sys_db : DB; sys_txns : list Txn }.

(** The requests [ps] arrive together on the database [db]. *)
Definition start (db : DB) (ps : list InventoryReservationIn) : Sys :=
  mkSys db (begin_txn <$> ps).

(** Transaction number [i] executes its next statement. *)
Definition sys_step (i : nat) (s : Sys) : option Sys :=
  match sys_txns s !! i with
  | None => None
  | Some t =>
      match txn_step (sys_db s) (delete i (sys_txns s)) t with
      | None => None
      | Some (G', t') => Some (mkSys G' (<[i := t']> (sys_txns s)))
      end
  end.

(** One step of the system, and its interleavings. *)
Definition step (s s' : Sys) : Prop := exists i, sys_step i s = Some s'.

Definition interleaving : Sys -> Sys -> Prop := rtc step.

(** A schedule names the transaction that moves at each step. *)
Fixpoint run (schedule : list nat) (s : Sys) : option Sys :=
  match schedule with
  | [] => Some s
  | i :: rest =>
      match sys_step i s with
      | None => None
      | Some s' => run rest s'
      end
  end.

Definition answers (s : Sys) : list PC := tx_pc <$> sys_txns s.

Definition all_done (s : Sys) : Prop :=
  Forall (fun t => exists r, tx_pc t = Done r) (sys_txns s).

(** ** Named outcomes, sample databases and the claims as worded *)

Definition reserve_failure : sql_error -> exn :=
  StorageFailure "DB error reserving inventory: ".

Definition update_failure : sql_error -> exn :=
  StorageFailure "DB error updating reservation: ".

(** The ledger after [update_reservation] has read the stored row
    [existing] and before it overwrites it. *)
Definition released_inventory (existing payload : InventoryReservationIn)
    (inv : gmap string Z) : gmap string Z :=
  if decide (res_status existing = "reserved" /\ res_status payload = "released")
  then restore_all inv (res_items existing)
  else inv.

Definition empty_db : DB :=
  {| inventory := ∅; inventory_reservations := ∅; orders := ∅ |}.

(** A ledger with five units of SKU X and nothing else. *)
Definition five_of_X : DB :=
  {| inventory := {["X" := 5]}; inventory_reservations := ∅; orders := ∅ |}.

(** Reserving, as the specification words it: the record created has
    status [reserved], and a failure is [SkuNotFound] or
    [InsufficientStock]. *)
Definition reserve_as_stated (p : InventoryReservationIn) (db : DB) : Prop :=
  (exists db' r,
      request (create_reservation p) db = (Return p, db') /\
      (forall k, inventory db' !! k =
                 (fun c => c - sum_qty k (res_items p)) <$> inventory db !! k) /\
      inventory_reservations db !! res_id p = None /\
      inventory_reservations db' = <[res_id p := r]> (inventory_reservations db) /\
      res_status r = "reserved")
  \/ (exists e it,
      request (create_reservation p) db = (Raise e, db) /\ it ∈ res_items p /\
      (e = SkuNotFound (sku it) \/ e = InsufficientStock (sku it))).

(** A reservation of three units of X, stored with status [reserved]. *)
Definition two_of_X_reserved : DB :=
  {| inventory := {["X" := 2]};
     inventory_reservations :=
       {["R1" := mkReservation "R1" "O1" [mkLine "X" 3] "reserved"]};
     orders := ∅ |}.

Definition order_failure : sql_error -> exn :=
  StorageFailure "DB error updating order: ".

(** An order, paid in rupees. *)
Definition paid_order : dict :=
  <["id" := JStr "O1"]>
    (<["userId" := JStr "U1"]>
       (<["address" := JNull]>
          (<["items" := JArr []]>
             (<["total" := JNum 100]>
                (<["currency" := JStr "INR"]>
                   (<["status" := JStr "paid"]>
                      (<["refund_attempt" := JNull]>
                         (<["payment_refund_status" := JNull]> ∅)))))))).

Definition one_paid_order : DB :=
  {| inventory := ∅; inventory_reservations := ∅;
     orders := {["O1" := paid_order]} |}.

(** The merge update, as the specification words it: whatever fields
    the body of the request carries, the update answers with the stored
    order in which exactly those fields are replaced. *)
Definition merge_update_as_stated (oid : string) (body : dict) (db : DB) : Prop :=
  forall ex, orders db !! oid = Some ex ->
  exists merged db',
    put_order oid body db = (Return merged, db') /\
    (forall k v, body !! k = Some v -> merged !! k = Some v) /\
    (forall k, body !! k = None -> merged !! k = ex !! k).

(** Lines of quantity zero or less, as the specification words them,
    in two parts: the check of such a line passes as soon as the row of
    its SKU exists, and a negative line of an accepted request raises
    the stock of its SKU by the absolute value of its quantity. *)
Definition nonpositive_check_as_stated (it : Line) (db : DB) : Prop :=
  qty it <= 0 -> is_Some (inventory db !! sku it) ->
  check_line it (mkSession db db) = (Return tt, mkSession db db).

Definition negative_line_as_stated (p : InventoryReservationIn) (db : DB) : Prop :=
  forall db' it current,
    request (create_reservation p) db = (Return p, db') ->
    it ∈ res_items p -> qty it < 0 ->
    inventory db !! sku it = Some current ->
    inventory db' !! sku it = Some (current + Z.abs (qty it)).

(** A ledger on which SKU X was oversold by one unit. *)
Definition X_oversold : DB :=
  {| inventory := {["X" := -1]}; inventory_reservations := ∅; orders := ∅ |}.

Definition ten_of_X : DB :=
  {| inventory := {["X" := 10]}; inventory_reservations := ∅; orders := ∅ |}.

(** The states of one attempt at three units of SKU [k] while five are
    committed: before its first statement, and after each statement on
    the way to its commit. *)
Definition waiting (p : InventoryReservationIn) (k : string) : Txn :=
  mkTxn p (Checking [mkLine k 3]) [] ∅ None.

Definition attempt_states (p : InventoryReservationIn) (k : string) : list Txn :=
  [ mkTxn p (Checking []) [k] ∅ None;
    mkTxn p (Decrementing [mkLine k 3]) [k] ∅ None;
    mkTxn p (Decrementing []) [k; k] {[k := 2]} None;
    mkTxn p Inserting [k; k] {[k := 2]} None;
    mkTxn p Committing [k; k] {[k := 2]} (Some p) ].

Definition won (p : InventoryReservationIn) : Txn :=
  mkTxn p (Done (Return p)) [] ∅ None.

Definition lost (p : InventoryReservationIn) (k : string) : Txn :=
  mkTxn p (Done (Raise (InsufficientStock k))) [] ∅ None.

Definition committed_by (p : InventoryReservationIn) (k : string) (db : DB) : DB :=
  {| inventory := {[k := 2]} ∪ inventory db;
     inventory_reservations := <[res_id p := p]> (inventory_reservations db);
     orders := orders db |}.

(** Every state two such attempts can be in together. *)
Definition race_states (db : DB) (k : string) (p1 p2 : InventoryReservationIn)
  : list Sys :=
  (mkSys db [waiting p1 k; waiting p2 k]
   :: ((fun t => mkSys db [t; waiting p2 k]) <$> attempt_states p1 k)
   ++ [mkSys (committed_by p1 k db) [won p1; waiting p2 k];
       mkSys (committed_by p1 k db) [won p1; lost p2 k]]
   ++ ((fun t => mkSys db [waiting p1 k; t]) <$> attempt_states p2 k)
   ++ [mkSys (committed_by p2 k db) [waiting p1 k; won p2];
       mkSys (committed_by p2 k db) [lost p1 k; won p2]])%list.

(** One attempt succeeded, the other failed for lack of stock, and two
    units are left. *)
Definition one_winner (k : string) (p1 p2 : InventoryReservationIn) (final : Sys)
  : Prop :=
  (answers final = [Done (Return p1); Done (Raise (InsufficientStock k))] \/
   answers final = [Done (Raise (InsufficientStock k)); Done (Return p2)]) /\
  inventory (sys_db final) !! k = Some 2.

(** The race, as the specification words it: whatever the two requests
    for three units of a SKU of which five are in stock, every
    interleaving of them that ends has one winner. *)
Definition no_oversell_as_stated (db : DB) (k : string)
    (p1 p2 : InventoryReservationIn) : Prop :=
  inventory db !! k = Some 5 ->
  res_items p1 = [mkLine k 3] ->
  res_items p2 = [mkLine k 3] ->
  forall final,
    interleaving (start db [p1; p2]) final -> all_done final ->
    one_winner k p1 p2 final.

(** Five units of X, and a reservation R1 stored earlier. *)
Definition five_of_X_R1_taken : DB :=
  {| inventory := {["X" := 5]};
     inventory_reservations := {["R1" := mkReservation "R1" "O0" [] "committed"]};
     orders := ∅ |}.

(** ** The remaining endpoints *)

(** An endpoint declared with a [response_model] answers with the value
    its handler returns only if that value fits the model; otherwise the
    request fails after the handler has run. *)
Inductive response (A : Type) : Type :=
| Answer (a : A)
| Failure (e : exn)
| ResponseValidationError.
Arguments Answer {A} a.
Arguments Failure {A} e.
Arguments ResponseValidationError {A}.

Definition respond {A B} (response_model : A -> option B)
    (r : outcome A * DB) : response B * DB :=
  match r with
  | (Return a, db) =>
      (match response_model a with
       | Some b => Answer b
       | None => ResponseValidationError
       end, db)
  | (Raise e, db) => (Failure e, db)
  end.

(** [str(e)] of an exception, abbreviated as [str_sql_error] is. *)
Definition str_exn (e : exn) : string :=
  match e with
  | HTTPException _ detail => detail
  | SQLAlchemyError e => str_sql_error e
  | AttributeError attr => "AttributeError: " +:+ attr
  | RequestValidationError _ => "RequestValidationError"
  end.

(** [try: body / except Exception as e: db.rollback();
    raise HTTPException(500, what + str(e))]. *)
Definition try_except_all {A} (what : string) (body : M A) : M A :=
  fun s => match body s with
           | (Raise e, s') =>
               (Raise (HTTPException 500 (what +:+ str_exn e)), snd (rollback s'))
           | r => r
           end.

(** *** Reservations: listing *)

(** [GET /inventory/reserve]: the rows of the table, in the order the
    database yields them (the query has no [ORDER BY]). *)
Definition list_reservations : M (list InventoryReservationIn) :=
  query (fun db => (map_to_list (inventory_reservations db)).*2).

(** The quantity of SKU [k] that the reservation [r] holds: the total of
    its lines while its status is [reserved], nothing otherwise. *)
Definition held (k : string) (r : InventoryReservationIn) : Z :=
  if decide (res_status r = "reserved") then sum_qty k (res_items r) else 0.

(** The quantity of SKU [k] held by all the stored reservations. *)
Definition outstanding (k : string)
    (reservations : gmap string InventoryReservationIn) : Z :=
  map_fold (fun _ r acc => held k r + acc) 0 reservations.

(** *** Inventory: reading *)

(** [dict(r._mapping)] of a row of [inventory]. *)
Definition inventory_row (s : string) (q : Z) : dict :=
  <["sku" := JStr s]> (<["quantity" := JNum q]> ∅).

(** [GET /inventory/{sku}]: the handler. *)
Definition get_inventory (s : string) : M dict :=
  r <- query (fun db => inventory db !! s) ;;
  match r with
  | None => raise (HTTPException 404 "sku not found")
  | Some q => ret (inventory_row s q)
  end.

(** [GET /inventory]: the handler. *)
Definition list_inventory : M (list dict) :=
  query (fun db => (fun kv => inventory_row kv.1 kv.2) <$> map_to_list (inventory db)).

(** [response_model=InventoryOut]; [InventoryOut] has the fields of
    [InventoryIn]. *)
Definition InventoryOut (d : dict) : option InventoryIn :=
  match InventoryIn_validate d with
  | Return p => Some p
  | Raise _ => None
  end.

(** [GET /inventory/{sku}] and [GET /inventory]: the endpoints. *)
Definition get_inventory_endpoint (s : string) (db : DB)
  : response InventoryIn * DB :=
  respond InventoryOut (request (get_inventory s) db).

Definition list_inventory_endpoint (db : DB) : response (list InventoryIn) * DB :=
  respond (mapM InventoryOut) (request list_inventory db).

(** *** Orders *)

(** The defaults of the optional fields of [OrderIn]. *)
Definition OrderIn_defaults : dict :=
  <["userId" := JNull]>
    (<["address" := JNull]>
       (<["currency" := JStr "INR"]>
          (<["refund_attempt" := JNull]>
             (<["payment_refund_status" := JNull]> ∅)))).

(** [payload.dict()]: every field, the unset ones with their default. *)
Definition OrderIn_dict (p : OrderIn) : dict :=
  OrderIn_dict_exclude_unset p ∪ OrderIn_defaults.

(** A column left out of an [INSERT] is NULL. *)
Definition orders_nulls : dict :=
  list_to_map ((fun c => (c, JNull)) <$> orders_columns).

Definition null_or_missing (v : option json) : bool :=
  match v with
  | Some JNull | None => true
  | Some _ => false
  end.

(** [orders.insert()] with [values] *)
Definition orders_insert (values : dict) : M unit :=
  if decide (consumed orders_columns values) then
    if existsb (fun c => null_or_missing (values !! c)) orders_not_null
    then raise (SQLAlchemyError (IntegrityError "orders" "NOT NULL"))
    else
      k <- column_str "orders" "id" (values !! "id") ;;
      taken <- query (fun db => orders db !! k) ;;
      match taken with
      | Some _ => raise (SQLAlchemyError (IntegrityError "orders" k))
      | None => execute (set_orders (insert k (values ∪ orders_nulls)))
      end
  else raise (SQLAlchemyError (CompileError "orders")).

(** [POST /orders]: the handler. *)
Definition create_order (payload : OrderIn) : M OrderIn :=
  orders_insert (OrderIn_dict payload) ;;;
  commit ;;;
  ret payload.

(** [GET /orders/{oid}]: the handler. *)
Definition get_order (oid : string) : M dict :=
  r <- query (fun db => orders db !! oid) ;;
  match r with
  | None => raise (HTTPException 404 "order not found")
  | Some row => ret row
  end.

(** [GET /orders]: the handler. *)
Definition list_orders : M (list dict) :=
  query (fun db => (map_to_list (orders db)).*2).

(** [DELETE /orders/{oid}] *)
Definition delete_order (oid : string) : M unit :=
  execute (set_orders (delete oid)) ;;;
  commit.

(** [response_model=OrderOut]: the answer is the dict of the model built
    from the value returned. *)
Definition OrderOut (d : dict) : option dict :=
  match OrderIn_validate d with
  | Return p => Some (OrderIn_dict p)
  | Raise _ => None
  end.

(** [POST /orders] and [GET /orders/{oid}]: the endpoints. *)
Definition post_order (body : dict) (db : DB) : response dict * DB :=
  match OrderIn_validate body with
  | Raise e => (Failure e, db)
  | Return payload =>
      respond (fun p => Some (OrderIn_dict p)) (request (create_order payload) db)
  end.

Definition get_order_endpoint (oid : string) (db : DB) : response dict * DB :=
  respond OrderOut (request (get_order oid) db).

(** [POST /orders/{oid}/refund-metadata].  [payload] is the body, the
    items of a JSON object in their order; [cols] is what the inspector
    reports as the columns of [orders] in the database. *)
Definition add_refund_metadata (cols : list string) (oid : string)
    (payload : list (string * json)) : M json :=
  try_except_all "Failed to apply refund metadata: "
    (let to_update := filter (fun kv => kv.1 ∈ cols) payload in
     match to_update with
     | [] => ret (JObj [("updated", JBool false);
                        ("reason", JStr "no matching columns")])
     | _ =>
         orders_update oid (list_to_map to_update) ;;;
         commit ;;;
         ret (JObj [("updated", JBool true);
                    ("updated_keys", JArr (JStr <$> to_update.*1))])
     end).

(** A value has the type declared for the column [k] of [orders]; no
    value has the type of a name that is not a column. *)
Definition column_typed (kv : string * json) : bool :=
  let '(k, v) := kv in
  if decide (k = "id" \/ k = "status") then
    match v with JStr _ => true | _ => false end
  else if decide (k = "userId" \/ k = "currency" \/ k = "payment_refund_status")
  then optional_str (Some v)
  else if decide (k = "address" \/ k = "refund_attempt")
  then optional_dict (Some v)
  else if decide (k = "items") then
    match v with JArr _ => true | _ => false end
  else if decide (k = "total") then
    match v with JNum _ => true | _ => false end
  else false.

(** A row of [orders] as the table holds it: its keys are columns, its
    id is its key and its NOT NULL columns are not null. *)
Definition stored_order (oid : string) (row : dict) : Prop :=
  consumed orders_columns row /\
  row !! "id" = Some (JStr oid) /\
  Forall (fun c => is_null (row !! c) = false) orders_not_null.

(** The answers of [add_refund_metadata]. *)
Definition not_updated : json :=
  JObj [("updated", JBool false); ("reason", JStr "no matching columns")].

Definition updated (keys : list string) : json :=
  JObj [("updated", JBool true); ("updated_keys", JArr (JStr <$> keys))].

(** *** Payments and shipments

    The two tables have the same five endpoints, written the same way;
    they are modelled once, over the type of the rows.  A request works
    on a session of its table alone. *)

Section Flat.
Context {Row : Type}.
Variable table : string.
Variable key : Row -> string.
Variable not_found : string.

Record Flat : Type := mkFlat {
  flat_committed : gmap string Row;
  flat_working : gmap string Row
}.

Definition F (A : Type) : Type := Flat -> outcome A * Flat.

Definition flat_then {A B} (m : F A) (k : F B) : F B :=
  fun s => match m s with
           | (Return _, s') => k s'
           | (Raise e, s') => (Raise e, s')
           end.

Definition flat_return {A} (a : A) : F A := fun s => (Return a, s).

Definition flat_commit : F unit :=
  fun s => (Return tt, mkFlat (flat_working s) (flat_working s)).

(** [table.insert()] with the values of [payload.dict()] *)
Definition flat_insert (r : Row) : F unit :=
  fun s => match flat_working s !! key r with
           | Some _ => (Raise (SQLAlchemyError (IntegrityError table (key r))), s)
           | None =>
               (Return tt, mkFlat (flat_committed s) (<[key r := r]> (flat_working s)))
           end.

(** [table.update().where(id == rid)] with the values of
    [payload.dict()], the key included. *)
Definition flat_update (rid : string) (r : Row) : F unit :=
  fun s =>
    match flat_working s !! rid with
    | None => (Return tt, s)
    | Some _ =>
        if decide (key r <> rid /\ is_Some (flat_working s !! key r))
        then (Raise (SQLAlchemyError (IntegrityError table (key r))), s)
        else (Return tt,
              mkFlat (flat_committed s)
                     (<[key r := r]> (delete rid (flat_working s))))
    end.

(** [table.delete().where(id == rid)] *)
Definition flat_delete (rid : string) : F unit :=
  fun s => (Return tt, mkFlat (flat_committed s) (delete rid (flat_working s))).

(** A request on a fresh session; what was not committed is lost. *)
Definition flat_request {A} (handler : F A) (t : gmap string Row)
  : outcome A * gmap string Row :=
  let '(r, s) := handler (mkFlat t t) in (r, flat_committed s).

Definition crud_create (payload : Row) : F Row :=
  flat_then (flat_insert payload) (flat_then flat_commit (flat_return payload)).

Definition crud_get (rid : string) : F Row :=
  fun s => match flat_working s !! rid with
           | None => (Raise (HTTPException 404 not_found), s)
           | Some r => (Return r, s)
           end.

Definition crud_list : F (list Row) :=
  fun s => (Return (map_to_list (flat_working s)).*2, s).

Definition crud_update (rid : string) (payload : Row) : F Row :=
  flat_then (flat_update rid payload) (flat_then flat_commit (flat_return payload)).

Definition crud_delete (rid : string) : F unit :=
  flat_then (flat_delete rid) flat_commit.
End Flat.

(** [class PaymentIn(BaseModel)]; the type of floats is a parameter, the
    handlers store and return the amount and never compute with it. *)
Record PaymentIn {float : Type} : Type := mkPayment {
  pay_id : string;
  pay_order_id : string;
  pay_amount : float;
  pay_status : string
}.
Arguments PaymentIn : clear implicits.
Arguments mkPayment {float}.

(** [class ShipmentIn(BaseModel)] *)
Record ShipmentIn : Type := mkShipment {
  ship_id : string;
  ship_order_id : string;
  ship_address : list (string * json);
  ship_items : list json;
  ship_status : string
}.

(** [POST], [GET], [PUT] and [DELETE] on [/payments]. *)
Definition create_payment {float} : PaymentIn float -> F (PaymentIn float) :=
  crud_create "payments" pay_id.
Definition get_payment {float} : string -> F (PaymentIn float) :=
  crud_get "payment not found".
Definition list_payments {float} : F (list (PaymentIn float)) := crud_list.
Definition update_payment {float}
  : string -> PaymentIn float -> F (PaymentIn float) :=
  crud_update "payments" pay_id.
Definition delete_payment {float} : string -> @F (PaymentIn float) unit :=
  crud_delete.

(** [POST], [GET], [PUT] and [DELETE] on [/shipments]. *)
Definition create_shipment : ShipmentIn -> F ShipmentIn :=
  crud_create "shipments" ship_id.
Definition get_shipment : string -> F ShipmentIn :=
  crud_get "shipment not found".
Definition list_shipments : F (list ShipmentIn) := crud_list.
Definition update_shipment : string -> ShipmentIn -> F ShipmentIn :=
  crud_update "shipments" ship_id.
Definition delete_shipment : string -> @F ShipmentIn unit := crud_delete.

(** The model that [OrderOut] builds from a stored row: every optional
    field is set, to the stored value. *)
Definition OrderIn_filled (p : OrderIn) : OrderIn :=
  {| o_id := o_id p;
     o_userId := Some (default JNull (o_userId p));
     o_address := Some (default JNull (o_address p));
     o_items := o_items p;
     o_total := o_total p;
     o_currency := Some (default (JStr "INR") (o_currency p));
     o_status := o_status p;
     o_refund_attempt := Some (default JNull (o_refund_attempt p));
     o_payment_refund_status := Some (default JNull (o_payment_refund_status p)) |}.

(** The optional fields that are set have their declared types. *)
Definition OrderIn_typed (p : OrderIn) : Prop :=
  optional_str (o_userId p) = true /\ optional_dict (o_address p) = true /\
  optional_str (o_currency p) = true /\
  optional_dict (o_refund_attempt p) = true /\
  optional_str (o_payment_refund_status p) = true.

(** * Properties *)

(** ** The loops of the coordinator *)

Lemma set_inventory_id (db : DB) : set_inventory (fun m => m) db = db.
Proof. by destruct db. Qed.

Lemma session_eta (s : Session) : mkSession (committed s) (working s) = s.
Proof. by destruct s. Qed.

(** The first loop reads and never writes: it leaves the session as it
    found it, whatever its outcome. *)
Lemma for_each_check_line (items : list Line) (s : Session) :
  for_each check_line items s =
  (match validate (inventory (working s)) items with
   | Some e => Raise e
   | None => Return tt
   end, s).
Proof.
  induction items as [|it rest IH]; [done|].
  cbn [for_each validate]. unfold bind at 1.
  unfold check_line, bind, _lock_and_get_inventory_row, query.
  destruct (inventory (working s) !! sku it) as [c|]; [|done].
  destruct (decide (c < qty it)); [done|].
  unfold ret. apply IH.
Qed.

Lemma for_each_decrement_line (items : list Line) (s : Session) :
  for_each decrement_line items s =
  (Return tt,
   mkSession (committed s)
     (set_inventory (fun m => decrement_all m items) (working s))).
Proof.
  revert s. induction items as [|it rest IH]; intros s.
  - cbn. unfold ret. by rewrite set_inventory_id, session_eta.
  - cbn [for_each]. unfold bind at 1.
    unfold decrement_line, adjust, execute. rewrite IH. by destruct s.
Qed.

Lemma for_each_restore_line (items : list Line) (s : Session) :
  for_each restore_line items s =
  (Return tt,
   mkSession (committed s)
     (set_inventory (fun m => restore_all m items) (working s))).
Proof.
  revert s. induction items as [|it rest IH]; intros s.
  - cbn. unfold ret. by rewrite set_inventory_id, session_eta.
  - cbn [for_each]. unfold bind at 1.
    unfold restore_line, bind, _lock_and_get_inventory_row, query.
    unfold restore_all. cbn [foldl].
    destruct (inventory (working s) !! sku it) as [c|] eqn:Hrow.
    + unfold adjust, execute. rewrite IH. unfold set_inventory. cbn.
      by rewrite Hrow.
    + unfold inventory_insert. rewrite Hrow. unfold execute. rewrite IH.
      unfold set_inventory. cbn. by rewrite Hrow.
Qed.

(** The outcome of the first loop is an [HTTPException]. *)
Lemma validate_http inv items e :
  validate inv items = Some e -> exists c d, e = HTTPException c d.
Proof.
  induction items as [|it rest IH]; [done|]. cbn.
  destruct (inv !! sku it) as [c|]; [|intros [= <-]; by eexists _, _].
  destruct (decide (c < qty it)); [intros [= <-]; by eexists _, _|done].
Qed.

Lemma validate_None inv items :
  validate inv items = None <-> Forall (line_available inv) items.
Proof.
  induction items as [|it rest IH]; cbn.
  - split; [constructor|done].
  - destruct (inv !! sku it) as [c|] eqn:Hrow.
    + destruct (decide (c < qty it)).
      * split; [done|]. intros H. inversion H as [|? ? (c' & Hc' & ?) _]; subst.
        rewrite Hrow in Hc'. injection Hc' as <-. lia.
      * rewrite IH. split.
        -- intros H. constructor; [|done]. exists c. split; [done|lia].
        -- intros H. by inversion H.
    + split; [done|]. intros H. inversion H as [|? ? (c' & Hc' & ?) _]; subst.
      rewrite Hrow in Hc'. done.
Qed.

(** The failure of the first loop is that of the first line, in the
    order of the request, that is not available. *)
Lemma validate_Some inv items e :
  validate inv items = Some e ->
  exists pre it post,
    items = (pre ++ it :: post)%list /\ Forall (line_available inv) pre /\
    ((inv !! sku it = None /\ e = SkuNotFound (sku it)) \/
     (exists current, inv !! sku it = Some current /\ current < qty it /\
                      e = InsufficientStock (sku it))).
Proof.
  induction items as [|it rest IH]; [done|]. cbn.
  destruct (inv !! sku it) as [c|] eqn:Hrow.
  - destruct (decide (c < qty it)).
    + intros [= <-]. exists [], it, rest. split; [done|]. split; [constructor|].
      right. by exists c.
    + intros H. destruct (IH H) as (pre & it' & post & -> & Hpre & Hit').
      exists (it :: pre), it', post. split; [done|]. split; [|done].
      constructor; [|done]. exists c. split; [done|lia].
  - intros [= <-]. exists [], it, rest. split; [done|]. split; [constructor|].
    by left.
Qed.

(** ** The ledger, SKU by SKU *)

Lemma sum_qty_cons k it rest :
  sum_qty k (it :: rest) =
  if decide (sku it = k) then qty it + sum_qty k rest else sum_qty k rest.
Proof. done. Qed.

Lemma decrement_all_lookup items inv k :
  decrement_all inv items !! k = (fun c => c - sum_qty k items) <$> inv !! k.
Proof.
  revert inv. induction items as [|it rest IH]; intros inv.
  - cbn. destruct (inv !! k); cbn; [f_equal; lia|done].
  - unfold decrement_all in *. cbn [foldl].
    rewrite IH, lookup_alter, sum_qty_cons.
    destruct (decide (sku it = k)) as [<-|]; [|done].
    destruct (inv !! sku it); cbn; [f_equal; lia|done].
Qed.

Lemma restore_all_spec items inv :
  restore_all inv items = foldl spec_restore_line inv items.
Proof.
  revert inv. induction items as [|it rest IH]; intros inv; [done|].
  unfold restore_all in *. cbn [foldl]. unfold spec_restore_line at 2.
  destruct (inv !! sku it) as [c|] eqn:Hrow; rewrite IH; [|done].
  f_equal. apply map_eq. intros k. rewrite lookup_alter, lookup_insert.
  destruct (decide (sku it = k)) as [<-|]; [by rewrite Hrow|done].
Qed.

(** The restore of a line on its own SKU and on the others. *)
Lemma spec_restore_line_lookup inv it k :
  spec_restore_line inv it !! k =
  if decide (sku it = k)
  then Some (match inv !! k with Some c => c + qty it | None => qty it end)
  else inv !! k.
Proof.
  unfold spec_restore_line.
  destruct (decide (sku it = k)) as [<-|Hne].
  - destruct (inv !! sku it); by rewrite lookup_insert_eq.
  - destruct (inv !! sku it); by rewrite lookup_insert_ne.
Qed.

Lemma restore_all_lookup items inv k :
  restore_all inv items !! k =
  match inv !! k with
  | Some c => Some (c + sum_qty k items)
  | None => if decide (Exists (fun it => sku it = k) items)
            then Some (sum_qty k items) else None
  end.
Proof.
  rewrite restore_all_spec.
  revert inv. induction items as [|it rest IH]; intros inv.
  - cbn. destruct (inv !! k); [f_equal; lia|].
    rewrite decide_False; [done|]. by intros H; inversion H.
  - cbn [foldl]. rewrite IH, spec_restore_line_lookup, sum_qty_cons.
    destruct (decide (sku it = k)) as [Hk|Hk].
    + destruct (inv !! k); [f_equal; lia|].
      by rewrite decide_True by (by constructor).
    + destruct (inv !! k); [done|].
      destruct (decide (Exists _ rest)) as [H|H].
      * rewrite decide_True; [done|]. by constructor.
      * rewrite decide_False; [done|]. intros H'. by inversion H'.
Qed.

(** ** The endpoints as functions of the committed database *)

Lemma create_reservation_request (p : InventoryReservationIn) (db : DB) :
  request (create_reservation p) db =
  match validate (inventory db) (res_items p) with
  | Some e => (Raise e, db)
  | None =>
      match inventory_reservations db !! res_id p with
      | Some _ =>
          (Raise (reserve_failure
                    (IntegrityError "inventory_reservations" (res_id p))), db)
      | None =>
          (Return p,
           {| inventory := decrement_all (inventory db) (res_items p);
              inventory_reservations := <[res_id p := p]> (inventory_reservations db);
              orders := orders db |})
      end
  end.
Proof.
  unfold request, create_reservation, try_except_sql, with_begin.
  unfold bind at 1. unfold bind at 1. rewrite for_each_check_line. cbn.
  destruct (validate (inventory db) (res_items p)) as [e|] eqn:Hv.
  - destruct (validate_http _ _ _ Hv) as (c & d & ->). done.
  - unfold bind at 1. rewrite for_each_decrement_line. cbn.
    unfold reservations_insert. cbn.
    destruct (inventory_reservations db !! res_id p); done.
Qed.

Lemma update_reservation_request (rid : string) (p : InventoryReservationIn) (db : DB) :
  request (update_reservation rid p) db =
  match inventory_reservations db !! rid with
  | None => (Raise ReservationNotFound, db)
  | Some existing =>
      if decide (res_id p <> rid /\ is_Some (inventory_reservations db !! res_id p))
      then (Raise (update_failure
                     (IntegrityError "inventory_reservations" (res_id p))), db)
      else
        (Return p,
         {| inventory := released_inventory existing p (inventory db);
            inventory_reservations :=
              <[res_id p := p]> (delete rid (inventory_reservations db));
            orders := orders db |})
  end.
Proof.
  unfold request, update_reservation, try_except_sql, with_begin.
  unfold bind at 1. unfold bind at 1. unfold reservations_select at 1.
  unfold query at 1. cbn.
  destruct (inventory_reservations db !! rid) as [ex|] eqn:Hex; [|done].
  unfold bind at 1. unfold released_inventory.
  destruct (decide (res_status ex = "reserved" /\ res_status p = "released")).
  - rewrite for_each_restore_line. unfold reservations_update. cbn. rewrite Hex.
    destruct (decide (res_id p = rid)) as [->|Hne].
    + rewrite decide_False by tauto. cbn. by rewrite insert_delete_eq.
    + destruct (inventory_reservations db !! res_id p) eqn:Hp.
      * rewrite decide_True by (split; [done|by eexists]). done.
      * rewrite decide_False by (intros [_ [? ?]]; done). done.
  - unfold ret. unfold reservations_update. cbn. rewrite Hex.
    destruct (decide (res_id p = rid)) as [->|Hne].
    + rewrite decide_False by tauto. cbn. by rewrite insert_delete_eq.
    + destruct (inventory_reservations db !! res_id p) eqn:Hp.
      * rewrite decide_True by (split; [done|by eexists]). done.
      * rewrite decide_False by (intros [_ [? ?]]; done). done.
Qed.

Lemma delete_reservation_request (rid : string) (db : DB) :
  request (delete_reservation rid) db =
  match inventory_reservations db !! rid with
  | None => (Return tt, db)
  | Some existing =>
      (Return tt,
       {| inventory := if decide (res_status existing = "reserved")
                       then restore_all (inventory db) (res_items existing)
                       else inventory db;
          inventory_reservations := delete rid (inventory_reservations db);
          orders := orders db |})
  end.
Proof.
  unfold request, delete_reservation, try_except_sql, with_begin.
  unfold bind at 1. unfold reservations_select at 1. unfold query at 1. cbn.
  destruct (inventory_reservations db !! rid) as [ex|] eqn:Hex; [|done].
  unfold bind at 1.
  destruct (decide (res_status ex = "reserved")).
  - rewrite for_each_restore_line. done.
  - done.
Qed.

(** ** Reserving *)

(** C1, on the code: a request that names SKU X twice, three units each
    time, is accepted against a stock of five, because each line is
    checked against the stored quantity and the two decrements are then
    both applied; the committed quantity of X is -1.  The stock of five
    can itself be the work of the service on an empty database: an empty
    reservation is created, its lines are overwritten, and its release
    recreates the row of X. *)
Lemma create_reservation_duplicate_lines_oversell :
  let p := mkReservation "R1" "O1" [mkLine "X" 3; mkLine "X" 3] "reserved" in
  (inventory five_of_X !! "X" = Some 5 /\
   fst (request (create_reservation p) five_of_X) = Return p /\
   inventory (snd (request (create_reservation p) five_of_X)) !! "X" = Some (-1)) /\
  (let r0 := mkReservation "R0" "O0" [] "reserved" in
   let r0' := mkReservation "R0" "O0" [mkLine "X" 5] "reserved" in
   let r0'' := mkReservation "R0" "O0" [mkLine "X" 5] "released" in
   let db1 := snd (request (create_reservation r0) empty_db) in
   let db2 := snd (request (update_reservation "R0" r0') db1) in
   let db3 := snd (request (update_reservation "R0" r0'') db2) in
   let db4 := snd (request (create_reservation p) db3) in
   inventory db3 !! "X" = Some 5 /\
   fst (request (create_reservation p) db3) = Return p /\
   inventory db4 !! "X" = Some (-1)).
Proof. cbv zeta. split; vm_compute; auto. Qed.

(** C2, counterexample: the handler stores the status of the request.  A
    request with status [committed] takes three units of X and leaves a
    record that was never [reserved]. *)
Lemma create_reservation_keeps_request_status :
  ~ reserve_as_stated (mkReservation "R1" "O1" [mkLine "X" 3] "committed") five_of_X.
Proof.
  unfold reserve_as_stated. rewrite create_reservation_request.
  intros [(db' & r & Hrun & _ & _ & Hrec & Hst) | (e & it & Hrun & _)].
  - vm_compute in Hrun. injection Hrun as <-.
    assert (Hr : inventory_reservations
                   {| inventory := {["X" := 2]};
                      inventory_reservations :=
                        {["R1" := mkReservation "R1" "O1" [mkLine "X" 3] "committed"]};
                      orders := ∅ |} !! "R1" = Some r).
    { transitivity ((<["R1" := r]> (inventory_reservations five_of_X)) !! "R1").
      - by f_equal.
      - apply lookup_insert_eq. }
    vm_compute in Hr. injection Hr as <-. discriminate Hst.
  - vm_compute in Hrun. discriminate Hrun.
Qed.

(** C2, as the code has it: a reservation request either takes from
    every SKU the total its lines ask and adds one record, the payload
    itself with the status the request carries, or fails and changes
    nothing.  It fails on the first line, in the order of the request,
    whose SKU is absent ([SkuNotFound]) or short ([InsufficientStock]),
    and, when every line passes, on a reservation id already stored
    (storage failure).  The checking loop changes no session. *)
Theorem create_reservation_all_or_nothing (p : InventoryReservationIn) (db : DB) :
  (forall s, snd (for_each check_line (res_items p) s) = s) /\
  ((exists db',
       request (create_reservation p) db = (Return p, db') /\
       Forall (line_available (inventory db)) (res_items p) /\
       (forall k, inventory db' !! k =
                  (fun c => c - sum_qty k (res_items p)) <$> inventory db !! k) /\
       inventory_reservations db !! res_id p = None /\
       inventory_reservations db' = <[res_id p := p]> (inventory_reservations db) /\
       size (inventory_reservations db') = S (size (inventory_reservations db)) /\
       orders db' = orders db)
   \/ (exists e,
       request (create_reservation p) db = (Raise e, db) /\
       ((exists pre it post,
            res_items p = (pre ++ it :: post)%list /\
            Forall (line_available (inventory db)) pre /\
            ((inventory db !! sku it = None /\ e = SkuNotFound (sku it)) \/
             (exists current, inventory db !! sku it = Some current /\
                              current < qty it /\
                              e = InsufficientStock (sku it))))
        \/ (Forall (line_available (inventory db)) (res_items p) /\
            is_Some (inventory_reservations db !! res_id p) /\
            e = reserve_failure
                  (IntegrityError "inventory_reservations" (res_id p)))))).
Proof.
  split; [intros s; by rewrite for_each_check_line|].
  rewrite create_reservation_request.
  destruct (validate (inventory db) (res_items p)) as [e|] eqn:Hv.
  - right. exists e. split; [done|]. left. by apply validate_Some.
  - apply validate_None in Hv.
    destruct (inventory_reservations db !! res_id p) as [old|] eqn:Hid.
    + right. eexists. split; [done|]. right. by eauto.
    + left. eexists. split; [done|]. cbn.
      repeat split; try done.
      * intros k. apply decrement_all_lookup.
      * by apply map_size_insert_None.
Qed.

(** The scenario of the specification: ten units of X; reserving four
    leaves six; releasing gives ten back; reserving four again and
    committing leaves six for good; seven are then refused. *)
Example reserve_release_commit_scenario :
  let r1 := mkReservation "R1" "O1" [mkLine "X" 4] "reserved" in
  let r2 := mkReservation "R2" "O2" [mkLine "X" 4] "reserved" in
  let r3 := mkReservation "R3" "O3" [mkLine "X" 7] "reserved" in
  let db1 := snd (request (create_reservation r1) ten_of_X) in
  let db2 := snd (request (update_reservation "R1"
                             (mkReservation "R1" "O1" [mkLine "X" 4] "released")) db1) in
  let db3 := snd (request (create_reservation r2) db2) in
  let db4 := snd (request (update_reservation "R2"
                             (mkReservation "R2" "O2" [mkLine "X" 4] "committed")) db3) in
  inventory db1 !! "X" = Some 6 /\
  inventory db2 !! "X" = Some 10 /\
  res_status <$> inventory_reservations db2 !! "R1" = Some "released" /\
  inventory db4 !! "X" = Some 6 /\
  res_status <$> inventory_reservations db4 !! "R2" = Some "committed" /\
  request (create_reservation r3) db4 = (Raise (InsufficientStock "X"), db4).
Proof. cbv zeta. vm_compute. auto 10. Qed.

(** ** Releasing *)

(** C3: a reservation created with status [reserved] and then released,
    the record and the rows of its SKUs being in between as the
    reservation left them, gives every SKU of the reservation the
    quantity it had before the reservation. *)
Theorem reserve_release_roundtrip
    (db db1 db1' db2 : DB) (p q : InventoryReservationIn) :
  request (create_reservation p) db = (Return p, db1) ->
  res_status p = "reserved" ->
  inventory_reservations db1' !! res_id p = Some p ->
  (forall it, it ∈ res_items p -> inventory db1' !! sku it = inventory db1 !! sku it) ->
  res_status q = "released" ->
  request (update_reservation (res_id p) q) db1' = (Return q, db2) ->
  forall it, it ∈ res_items p -> inventory db2 !! sku it = inventory db !! sku it.
Proof.
  intros Hcreate Hp Hrec Hframe Hq Hupdate it Hit.
  rewrite create_reservation_request in Hcreate.
  destruct (validate (inventory db) (res_items p)) eqn:Hv; [done|].
  destruct (inventory_reservations db !! res_id p); [done|].
  injection Hcreate as <-.
  apply validate_None in Hv. rewrite Forall_forall in Hv.
  destruct (Hv it Hit) as (c & Hc & _).
  specialize (Hframe it Hit). cbn in Hframe.
  rewrite decrement_all_lookup, Hc in Hframe. cbn in Hframe.
  rewrite update_reservation_request, Hrec in Hupdate.
  destruct (decide _) in Hupdate; [done|]. injection Hupdate as <-. cbn.
  unfold released_inventory. rewrite decide_True by done.
  rewrite restore_all_lookup, Hframe, Hc. f_equal. lia.
Qed.

Lemma reserve_release_roundtrip_witness :
  let p := mkReservation "R1" "O1" [mkLine "X" 3] "reserved" in
  let q := mkReservation "R1" "O1" [] "released" in
  let db1 := snd (request (create_reservation p) five_of_X) in
  let db2 := snd (request (update_reservation "R1" q) db1) in
  inventory db1 !! "X" = Some 2 /\
  forall it, it ∈ res_items p -> inventory db2 !! sku it = inventory five_of_X !! sku it.
Proof.
  cbv zeta. split; [by vm_compute|].
  apply (reserve_release_roundtrip five_of_X
           (snd (request (create_reservation
                            (mkReservation "R1" "O1" [mkLine "X" 3] "reserved"))
                         five_of_X))
           (snd (request (create_reservation
                            (mkReservation "R1" "O1" [mkLine "X" 3] "reserved"))
                         five_of_X))
           _
           (mkReservation "R1" "O1" [mkLine "X" 3] "reserved")
           (mkReservation "R1" "O1" [] "released"));
    vm_compute; reflexivity.
Defined.

(** C4: [update_reservation] changes the ledger only on the transition
    from a stored status [reserved] to a new status [released].  For any
    other pair of statuses, [reserved] to [committed] included, and when
    the reservation does not exist or the overwrite is refused, the
    [inventory] and [orders] tables are as before and the reservation
    table is either as before or has the row overwritten by the payload.
    Hence the same call applied a second time, after it succeeded,
    leaves the ledger as the first call left it. *)
Theorem update_reservation_ledger_frame
    (rid : string) (q : InventoryReservationIn) (db : DB) :
  (forall r db',
      request (update_reservation rid q) db = (r, db') ->
      (forall ex, inventory_reservations db !! rid = Some ex ->
                  ~ (res_status ex = "reserved" /\ res_status q = "released")) ->
      inventory db' = inventory db /\ orders db' = orders db /\
      (db' = db \/
       (r = Return q /\
        inventory_reservations db' =
          <[res_id q := q]> (delete rid (inventory_reservations db)))))
  /\ (forall db1 r2 db2,
      request (update_reservation rid q) db = (Return q, db1) ->
      request (update_reservation rid q) db1 = (r2, db2) ->
      inventory db2 = inventory db1).
Proof.
  assert (Hframe : forall d r d',
    request (update_reservation rid q) d = (r, d') ->
    (forall ex, inventory_reservations d !! rid = Some ex ->
                ~ (res_status ex = "reserved" /\ res_status q = "released")) ->
    inventory d' = inventory d /\ orders d' = orders d /\
    (d' = d \/
     (r = Return q /\
      inventory_reservations d' =
        <[res_id q := q]> (delete rid (inventory_reservations d))))).
  { intros d r d' Hrun Hother. rewrite update_reservation_request in Hrun.
    destruct (inventory_reservations d !! rid) as [ex|] eqn:Hex.
    - destruct (decide _) in Hrun; injection Hrun as <- <-; [by auto|].
      cbn. unfold released_inventory.
      rewrite decide_False by (by apply Hother). by auto.
    - injection Hrun as <- <-. by auto. }
  split; [by apply Hframe|].
  intros db1 r2 db2 Hfirst Hsecond.
  apply (Hframe _ _ _ Hsecond).
  intros ex Hex [Hres Hrel].
  rewrite update_reservation_request in Hfirst.
  destruct (inventory_reservations db !! rid) as [ex0|]; [|done].
  destruct (decide _) as [|Hfree] in Hfirst; [done|].
  injection Hfirst as <-. cbn in Hex.
  destruct (decide (res_id q = rid)) as [Heq|Hne].
  - rewrite Heq, lookup_insert_eq in Hex. injection Hex as <-.
    rewrite Hrel in Hres. discriminate Hres.
  - rewrite lookup_insert_ne, lookup_delete_eq in Hex by done. done.
Qed.

Lemma update_reservation_ledger_frame_witness :
  let commit_it := mkReservation "R1" "O1" [mkLine "X" 3] "committed" in
  let release_it := mkReservation "R1" "O1" [mkLine "X" 3] "released" in
  let committed_db := snd (request (update_reservation "R1" commit_it) two_of_X_reserved) in
  let released_db := snd (request (update_reservation "R1" release_it) two_of_X_reserved) in
  (inventory committed_db = inventory two_of_X_reserved /\
   res_status <$> inventory_reservations committed_db !! "R1" = Some "committed") /\
  (inventory released_db !! "X" = Some 5 /\
   inventory (snd (request (update_reservation "R1" release_it) released_db))
   = inventory released_db).
Proof.
  cbv zeta. split; split.
  - eapply (proj1 (update_reservation_ledger_frame "R1"
                     (mkReservation "R1" "O1" [mkLine "X" 3] "committed")
                     two_of_X_reserved)).
    + apply surjective_pairing.
    + intros ex _ [_ Hrel]. discriminate Hrel.
  - vm_compute. reflexivity.
  - vm_compute. reflexivity.
  - eapply (proj2 (update_reservation_ledger_frame "R1"
                     (mkReservation "R1" "O1" [mkLine "X" 3] "released")
                     two_of_X_reserved)).
    + vm_compute. reflexivity.
    + apply surjective_pairing.
Defined.

(** C5: a release, from a stored status [reserved] to a new status
    [released], succeeds whenever the payload keeps the id or moves the
    row to a free one, and restores the lines of the stored record,
    whatever lines the payload carries: line after line, an absent SKU
    row is recreated with the quantity of the line, and the quantity of
    the line is added to a row that exists. *)
Theorem release_restores_stored_items
    (rid : string) (ex q : InventoryReservationIn) (db : DB) :
  inventory_reservations db !! rid = Some ex ->
  res_status ex = "reserved" ->
  res_status q = "released" ->
  res_id q = rid \/ inventory_reservations db !! res_id q = None ->
  exists db',
    request (update_reservation rid q) db = (Return q, db') /\
    inventory db' = foldl spec_restore_line (inventory db) (res_items ex) /\
    inventory_reservations db' =
      <[res_id q := q]> (delete rid (inventory_reservations db)).
Proof.
  intros Hex Hres Hrel Hid.
  rewrite update_reservation_request, Hex.
  rewrite decide_False.
  - eexists. split; [done|]. cbn. split; [|done].
    unfold released_inventory. rewrite decide_True by done.
    apply restore_all_spec.
  - intros [Hne [x Hx]]. destruct Hid as [?|Hfree]; [done|].
    rewrite Hfree in Hx. done.
Qed.

Lemma release_restores_stored_items_witness :
  exists db',
    request (update_reservation "R1" (mkReservation "R1" "O1" [mkLine "Y" 9] "released"))
            two_of_X_reserved
    = (Return (mkReservation "R1" "O1" [mkLine "Y" 9] "released"), db') /\
    inventory db' = foldl spec_restore_line (inventory two_of_X_reserved) [mkLine "X" 3] /\
    inventory_reservations db' =
      <["R1" := mkReservation "R1" "O1" [mkLine "Y" 9] "released"]>
        (delete "R1" (inventory_reservations two_of_X_reserved)).
Proof.
  apply (release_restores_stored_items "R1"
           (mkReservation "R1" "O1" [mkLine "X" 3] "reserved")
           (mkReservation "R1" "O1" [mkLine "Y" 9] "released")
           two_of_X_reserved).
  - vm_compute. reflexivity.
  - reflexivity.
  - reflexivity.
  - left. reflexivity.
Defined.

(** ** Deleting a reservation *)

(** C6: [delete_reservation] always succeeds.  On an id that is not
    stored it changes nothing; on a stored reservation it removes the
    record, after restoring line after line the stock of a reservation
    whose status is [reserved], and with no change to the ledger for any
    other status.  The ledger it leaves for a [reserved] reservation is
    the one a release leaves, and a second delete changes nothing. *)
Theorem delete_reservation_idempotent (rid : string) (db : DB) :
  match inventory_reservations db !! rid with
  | None => request (delete_reservation rid) db = (Return tt, db)
  | Some ex =>
      exists db',
        request (delete_reservation rid) db = (Return tt, db') /\
        inventory_reservations db' = delete rid (inventory_reservations db) /\
        orders db' = orders db /\
        inventory db' =
          (if decide (res_status ex = "reserved")
           then foldl spec_restore_line (inventory db) (res_items ex)
           else inventory db) /\
        (forall q db2,
            res_status ex = "reserved" -> res_status q = "released" ->
            request (update_reservation rid q) db = (Return q, db2) ->
            inventory db' = inventory db2)
  end
  /\ (let db1 := snd (request (delete_reservation rid) db) in
      request (delete_reservation rid) db1 = (Return tt, db1)).
Proof.
  split.
  - rewrite delete_reservation_request.
    destruct (inventory_reservations db !! rid) as [ex|] eqn:Hex; [|done].
    eexists. split; [done|]. cbn. repeat split.
    + destruct (decide _); [apply restore_all_spec|done].
    + intros q db2 Hres Hrel Hrun.
      rewrite update_reservation_request, Hex in Hrun.
      destruct (decide _) in Hrun; [done|]. injection Hrun as <-. cbn.
      unfold released_inventory. by rewrite !decide_True by done.
  - cbv zeta. rewrite !delete_reservation_request.
    destruct (inventory_reservations db !! rid) as [ex|] eqn:Hex; cbn.
    + by rewrite lookup_delete_eq.
    + by rewrite Hex.
Qed.

Lemma delete_reservation_idempotent_witness :
  let db1 := snd (request (delete_reservation "R1") two_of_X_reserved) in
  (inventory db1 !! "X" = Some 5 /\ inventory_reservations db1 !! "R1" = None) /\
  request (delete_reservation "R1") db1 = (Return tt, db1).
Proof.
  cbv zeta. split; [by vm_compute|].
  apply (proj2 (delete_reservation_idempotent "R1" two_of_X_reserved)).
Defined.

(** ** Orders: the merge update *)

Lemma lookup_set_field (k' k : string) (v : option json) (d : dict) :
  set_field k' v d !! k =
  match (if decide (k' = k) then v else None) with
  | Some x => Some x
  | None => d !! k
  end.
Proof.
  unfold set_field. destruct v as [x|]; [|by destruct (decide (k' = k))].
  rewrite lookup_insert. by destruct (decide (k' = k)).
Qed.

(** The keys of [dict(exclude_unset=True)] are the required fields and
    the optional fields that were set. *)
Lemma exclude_unset_lookup (p : OrderIn) (k : string) :
  OrderIn_dict_exclude_unset p !! k =
  if decide (k = "id") then Some (JStr (o_id p))
  else if decide (k = "items") then Some (JArr (o_items p))
  else if decide (k = "total") then Some (JNum (o_total p))
  else if decide (k = "status") then Some (JStr (o_status p))
  else if decide (k = "userId") then o_userId p
  else if decide (k = "address") then o_address p
  else if decide (k = "currency") then o_currency p
  else if decide (k = "refund_attempt") then o_refund_attempt p
  else if decide (k = "payment_refund_status") then o_payment_refund_status p
  else None.
Proof.
  unfold OrderIn_dict_exclude_unset.
  rewrite !lookup_insert, !lookup_set_field, lookup_empty.
  repeat (case_decide; subst; try done).
  all: repeat (case_match; try done).
Qed.

Lemma exclude_unset_consumed (p : OrderIn) :
  consumed orders_columns (OrderIn_dict_exclude_unset p).
Proof.
  intros k v Hk. rewrite exclude_unset_lookup in Hk. unfold orders_columns.
  repeat (case_decide; [subst; rewrite !elem_of_cons; tauto|]). done.
Qed.

(** A validated body and the model built from it agree on every
    declared field; the other keys of the body are dropped. *)
Lemma validate_exclude_unset (body : dict) (p : OrderIn) (k : string) :
  OrderIn_validate body = Return p ->
  OrderIn_dict_exclude_unset p !! k =
  if decide (k ∈ orders_columns) then body !! k else None.
Proof.
  intros Hv. unfold OrderIn_validate in Hv.
  destruct (body !! "id") as [[]|] eqn:Hid; try discriminate Hv.
  destruct (body !! "items") as [[]|] eqn:Hitems; try discriminate Hv.
  destruct (body !! "total") as [[]|] eqn:Htotal; try discriminate Hv.
  destruct (body !! "status") as [[]|] eqn:Hstatus; try discriminate Hv.
  destruct (_ && _) in Hv; [|discriminate Hv]. injection Hv as <-.
  rewrite exclude_unset_lookup. cbn. unfold orders_columns.
  repeat (destruct (decide (k = _)) as [->|?];
          [rewrite decide_True by (rewrite !elem_of_cons; tauto); done|]).
  rewrite decide_False; [done|]. rewrite !elem_of_cons, elem_of_nil. tauto.
Qed.

Lemma merged_lookup (p : OrderIn) (ex : dict) (k : string) :
  (OrderIn_dict_exclude_unset p ∪ ex) !! k =
  match OrderIn_dict_exclude_unset p !! k with
  | Some v => Some v
  | None => ex !! k
  end.
Proof.
  rewrite lookup_union. destruct (_ !! k), (ex !! k); done.
Qed.

Lemma merged_again (a b : dict) : (a ∪ b) ∪ b = a ∪ b.
Proof.
  apply map_eq. intros k. rewrite !lookup_union.
  destruct (a !! k), (b !! k); done.
Qed.

Lemma merged_required (p : OrderIn) (ex : dict) :
  (OrderIn_dict_exclude_unset p ∪ ex) !! "id" = Some (JStr (o_id p)) /\
  (OrderIn_dict_exclude_unset p ∪ ex) !! "items" = Some (JArr (o_items p)) /\
  (OrderIn_dict_exclude_unset p ∪ ex) !! "total" = Some (JNum (o_total p)) /\
  (OrderIn_dict_exclude_unset p ∪ ex) !! "status" = Some (JStr (o_status p)).
Proof.
  rewrite !merged_lookup, !exclude_unset_lookup.
  repeat split; by repeat case_decide.
Qed.

Lemma update_order_request (oid : string) (p : OrderIn) (db : DB) (ex : dict) :
  orders db !! oid = Some ex ->
  consumed orders_columns ex ->
  request (update_order oid p) db =
  if decide (o_id p <> oid /\ is_Some (orders db !! o_id p))
  then (Raise (order_failure (IntegrityError "orders" (o_id p))), db)
  else (Return (OrderIn_dict_exclude_unset p ∪ ex),
        set_orders (fun t => <[o_id p := OrderIn_dict_exclude_unset p ∪ ex]>
                               (delete oid t)) db).
Proof.
  intros Hex Hcols.
  unfold request, update_order, try_except_sql, with_begin.
  unfold bind at 1. unfold bind at 1. unfold query at 1. cbn. rewrite Hex.
  unfold bind at 1. unfold orders_update.
  rewrite decide_True.
  2:{ intros k v. rewrite lookup_union_Some_raw.
      intros [Hk|[_ Hk]]; [by eapply exclude_unset_consumed|by eapply Hcols]. }
  unfold bind at 1. unfold query at 1. cbn. rewrite Hex, merged_again.
  destruct (merged_required p ex) as (-> & -> & -> & ->). cbn.
  unfold bind, column_str, ret, query. cbn.
  destruct (orders db !! o_id p) as [other|] eqn:Hother.
  - destruct (decide (o_id p = oid)) as [Heq|Hne].
    + rewrite !decide_False by (intros [? _]; done). done.
    + rewrite !decide_True by (split; [done|by eexists]). done.
  - rewrite !decide_False by (intros [_ [? ?]]; done). done.
Qed.

(** C7, counterexample: a body that carries only [status] is not an
    [OrderIn], whose fields [id], [items] and [total] are required; the
    request is refused before the handler runs and the order stays
    [paid]. *)
Lemma put_order_status_only_refused :
  ~ merge_update_as_stated "O1" {["status" := JStr "shipped"]} one_paid_order.
Proof.
  intros H. destruct (H paid_order) as (merged & db' & Hrun & _).
  - apply lookup_singleton_eq.
  - unfold put_order, OrderIn_validate in Hrun.
    rewrite (lookup_singleton_ne "status" "id") in Hrun by done.
    discriminate Hrun.
Qed.

(** C7, as the code has it: for every stored order and every body that
    the model [OrderIn] accepts (so one that carries [id], [items],
    [total] and [status]), the update answers with, and stores, the
    order in which every declared field present in the body has the
    value of the body and every other field keeps its stored value,
    provided the id of the body is the id of the order or is free. *)
Theorem put_order_merge (oid : string) (body : dict) (p : OrderIn) (db : DB) (ex : dict) :
  OrderIn_validate body = Return p ->
  orders db !! oid = Some ex ->
  consumed orders_columns ex ->
  o_id p = oid \/ orders db !! o_id p = None ->
  exists merged db',
    put_order oid body db = (Return merged, db') /\
    (forall k, merged !! k =
               match (if decide (k ∈ orders_columns) then body !! k else None) with
               | Some v => Some v
               | None => ex !! k
               end) /\
    orders db' = <[o_id p := merged]> (delete oid (orders db)) /\
    inventory db' = inventory db /\
    inventory_reservations db' = inventory_reservations db.
Proof.
  intros Hv Hex Hcols Hid. unfold put_order. rewrite Hv.
  rewrite (update_order_request oid p db ex Hex Hcols).
  rewrite decide_False.
  - eexists _, _. split; [done|]. split; [|done].
    intros k. rewrite merged_lookup. by rewrite (validate_exclude_unset body p k Hv).
  - intros [Hne [x Hx]]. destruct Hid as [?|Hfree]; [done|].
    rewrite Hfree in Hx. done.
Qed.

Lemma put_order_merge_witness :
  let body : dict :=
    <["id" := JStr "O1"]>
      (<["items" := JArr []]>
         (<["total" := JNum 100]> (<["status" := JStr "shipped"]> ∅))) in
  exists merged db',
    put_order "O1" body one_paid_order = (Return merged, db') /\
    merged !! "status" = Some (JStr "shipped") /\
    merged !! "currency" = Some (JStr "INR") /\
    orders db' !! "O1" = Some merged.
Proof.
  cbv zeta.
  destruct (put_order_merge "O1"
              (<["id" := JStr "O1"]>
                 (<["items" := JArr []]>
                    (<["total" := JNum 100]> (<["status" := JStr "shipped"]> ∅))))
              (mkOrderIn "O1" None None [] 100 None "shipped" None None)
              one_paid_order paid_order)
    as (merged & db' & Hrun & Hk & Horders & _).
  - vm_compute. reflexivity.
  - vm_compute. reflexivity.
  - unfold paid_order, orders_columns.
    repeat (apply map_Forall_insert_2; [rewrite !elem_of_cons; tauto|]).
    apply map_Forall_empty.
  - left. reflexivity.
  - exists merged, db'. split; [exact Hrun|].
    rewrite !Hk, Horders. cbn [o_id]. rewrite lookup_insert_eq.
    repeat split; vm_compute; reflexivity.
Defined.

(** ** Inventory CRUD *)

Lemma InventoryIn_no_sku (payload : InventoryIn) :
  InventoryIn_dict payload !! "sku" = None.
Proof.
  unfold InventoryIn_dict. by rewrite !lookup_insert_ne, lookup_empty by done.
Qed.

Lemma InventoryIn_not_consumed (payload : InventoryIn) :
  ~ consumed inventory_columns (InventoryIn_dict payload).
Proof.
  intros H. specialize (H "id" (JStr (inv_id payload)) (lookup_insert_eq _ _ _)).
  cbn in H. unfold inventory_columns in H.
  rewrite !elem_of_cons, elem_of_nil in H. by destruct H as [|[|[]]].
Qed.

(** C9: the two write endpoints of the inventory never store a row.
    Their model [InventoryIn] has the fields id, orderId, items and
    status: the create handler stops on [payload.sku], which is not a
    field, and the update statement is refused because none of the keys
    of [payload.dict()] is a column of [inventory]; a body that the
    model does not accept is refused before the handler.  In every case
    the answer is an error and the database is as before. *)
Theorem inventory_create_update_fail
    (payload : InventoryIn) (body : dict) (s : string) (db : DB) :
  request (create_inventory payload) db = (Raise (AttributeError "sku"), db) /\
  request (update_inventory s payload) db
    = (Raise (SQLAlchemyError (CompileError "inventory")), db) /\
  (exists e, post_inventory body db = (Raise e, db)) /\
  (exists e, put_inventory s body db = (Raise e, db)).
Proof.
  assert (Hcreate : forall p, request (create_inventory p) db
                              = (Raise (AttributeError "sku"), db)).
  { intros p. unfold request, create_inventory, bind, getattr.
    by rewrite InventoryIn_no_sku. }
  assert (Hupdate : forall p, request (update_inventory s p) db
                              = (Raise (SQLAlchemyError (CompileError "inventory")), db)).
  { intros p. unfold request, update_inventory, bind, inventory_update_values.
    by rewrite decide_False by apply InventoryIn_not_consumed. }
  split; [apply Hcreate|]. split; [apply Hupdate|]. split.
  - unfold post_inventory. destruct (InventoryIn_validate body); by eauto.
  - unfold put_inventory. destruct (InventoryIn_validate body); by eauto.
Qed.

(** ** Lines that ask for nothing or less *)

Lemma sum_qty_only (k : string) (it : Line) (items : list Line) :
  filter (fun l => sku l = k) items = [it] -> sum_qty k items = qty it.
Proof.
  intros Hf.
  assert (Hsum : sum_qty k items = sum_qty k (filter (fun l => sku l = k) items)).
  { clear Hf. induction items as [|l rest IH]; [done|].
    rewrite filter_cons, sum_qty_cons.
    destruct (decide (sku l = k)) as [Hl|Hl]; [|done].
    rewrite sum_qty_cons, decide_True by done. by rewrite IH. }
  assert (Hit : sku it = k).
  { assert (Hin : it ∈ filter (fun l => sku l = k) items)
      by (rewrite Hf; apply list_elem_of_here).
    by apply list_elem_of_filter in Hin as [? _]. }
  rewrite Hsum, Hf, sum_qty_cons, decide_True by done. cbn. lia.
Qed.

(** C10, counterexample: against a stored quantity of -1 a line of
    quantity 0 is refused, and a request with the lines (X, -2) and
    (X, 5) takes a stock of 10 to 7, not to 12. *)
Lemma nonpositive_lines_not_as_stated :
  ~ nonpositive_check_as_stated (mkLine "X" 0) X_oversold /\
  ~ negative_line_as_stated
      (mkReservation "R1" "O1" [mkLine "X" (-2); mkLine "X" 5] "reserved") ten_of_X.
Proof.
  split.
  - intros H. assert (Hrun := H ltac:(done) ltac:(by eexists)).
    vm_compute in Hrun. discriminate Hrun.
  - intros H.
    assert (Hrun : inventory
              (snd (request
                      (create_reservation
                         (mkReservation "R1" "O1" [mkLine "X" (-2); mkLine "X" 5]
                            "reserved")) ten_of_X)) !! "X"
            = Some (10 + Z.abs (-2))).
    { apply (H _ (mkLine "X" (-2)) 10).
      - vm_compute. reflexivity.
      - apply list_elem_of_here.
      - reflexivity.
      - vm_compute. reflexivity. }
    vm_compute in Hrun. discriminate Hrun.
Qed.

(** C10, as the code has it: [create_reservation] does not ask that the
    quantity of a line be positive.  The check of a line of quantity
    zero or less passes whenever the row of its SKU exists with a
    quantity that is not negative.  After an accepted request the stock
    of every SKU is lowered by the total of the lines of that SKU, so
    that a negative line which is the only line of its SKU raises the
    stock by the absolute value of its quantity. *)
Theorem reserve_nonpositive_lines (p : InventoryReservationIn) (db : DB) :
  (forall it current s,
      qty it <= 0 ->
      inventory (working s) !! sku it = Some current -> 0 <= current ->
      check_line it s = (Return tt, s))
  /\ (forall db' it current,
      request (create_reservation p) db = (Return p, db') ->
      it ∈ res_items p -> qty it < 0 ->
      inventory db !! sku it = Some current ->
      inventory db' !! sku it = Some (current - sum_qty (sku it) (res_items p)) /\
      (filter (fun l => sku l = sku it) (res_items p) = [it] ->
       inventory db' !! sku it = Some (current + Z.abs (qty it)))).
Proof.
  split.
  - intros it c s Hq Hrow Hc.
    unfold check_line, bind, _lock_and_get_inventory_row, query.
    rewrite Hrow. rewrite decide_False by lia. done.
  - intros db' it c Hrun Hit Hq Hrow.
    rewrite create_reservation_request in Hrun.
    destruct (validate _ _); [done|].
    destruct (inventory_reservations db !! res_id p); [done|].
    injection Hrun as <-. cbn. rewrite decrement_all_lookup, Hrow. cbn.
    split; [done|]. intros Honly. rewrite (sum_qty_only _ _ _ Honly).
    f_equal. lia.
Qed.

Lemma reserve_nonpositive_lines_witness :
  let p := mkReservation "R1" "O1" [mkLine "X" (-2)] "reserved" in
  check_line (mkLine "X" (-2)) (mkSession ten_of_X ten_of_X)
    = (Return tt, mkSession ten_of_X ten_of_X) /\
  inventory (snd (request (create_reservation p) ten_of_X)) !! "X" = Some 12.
Proof.
  cbv zeta. split.
  - apply (proj1 (reserve_nonpositive_lines
                    (mkReservation "R1" "O1" [mkLine "X" (-2)] "reserved") ten_of_X)
             (mkLine "X" (-2)) 10 (mkSession ten_of_X ten_of_X)).
    + vm_compute. discriminate.
    + vm_compute. reflexivity.
    + lia.
  - apply (proj2 (proj2 (reserve_nonpositive_lines
                    (mkReservation "R1" "O1" [mkLine "X" (-2)] "reserved") ten_of_X)
             _ (mkLine "X" (-2)) 10 (surjective_pairing _)
             ltac:(apply list_elem_of_here) eq_refl eq_refl)).
    vm_compute. reflexivity.
Defined.

(** ** Two attempts at three units out of five *)

Lemma run_interleaving (schedule : list nat) (s s' : Sys) :
  run schedule s = Some s' -> interleaving s s'.
Proof.
  revert s. induction schedule as [|i rest IH]; intros s; cbn.
  - intros [= <-]. apply rtc_refl.
  - destruct (sys_step i s) as [s1|] eqn:Hstep; [|done].
    intros Hrest. eapply rtc_l; [by exists i|by apply IH].
Qed.

Section Race.
Variables (db : DB) (k : string) (p1 p2 : InventoryReservationIn).
Hypothesis Hk : inventory db !! k = Some 5.
Hypothesis H1 : res_items p1 = [mkLine k 3].
Hypothesis H2 : res_items p2 = [mkLine k 3].
Hypothesis F1 : inventory_reservations db !! res_id p1 = None.
Hypothesis F2 : inventory_reservations db !! res_id p2 = None.

Lemma lookup_written (m : gmap string Z) (q : Z) : ({[k := q]} ∪ m) !! k = Some q.
Proof. apply lookup_union_Some_l, lookup_singleton_eq. Qed.

Lemma no_lock : bool_decide (k ∈ @nil string) = false.
Proof. apply bool_decide_eq_false_2, not_elem_of_nil. Qed.

Lemma one_lock : bool_decide (k ∈ [k]) = true.
Proof. apply bool_decide_eq_true_2, list_elem_of_here. Qed.

Lemma two_locks : bool_decide (k ∈ [k; k]) = true.
Proof. apply bool_decide_eq_true_2, list_elem_of_here. Qed.

Lemma no_insert (rid : string) : bool_decide (@None string = Some rid) = false.
Proof. by apply bool_decide_eq_false_2. Qed.

Ltac step_cbn H :=
  cbn [lookup list_lookup insert list_insert delete list_delete
       sys_txns sys_db tx_pc tx_payload tx_locks tx_inventory tx_reservation
       txn_step view locked_elsewhere inserted_elsewhere existsb orb
       fmap option_fmap option_map sku qty goto lock write finish
       waiting won lost committed_by inventory inventory_reservations orders
       res_items] in H.

(** Evaluate the step of the system in [H : sys_step i s = Some s']. *)
Ltac eval_step H :=
  unfold sys_step in H; step_cbn H; rewrite ?H1, ?H2 in H; step_cbn H;
  rewrite ?(left_id_L ∅ (∪)), ?lookup_written, ?Hk, ?F1, ?F2 in H; step_cbn H;
  rewrite ?no_lock, ?one_lock, ?two_locks, ?no_insert in H; step_cbn H;
  rewrite ?(decide_False (P := 5 < 3)), ?(decide_True (P := 2 < 3)) in H by lia;
  step_cbn H.

Ltac pick_state := repeat (first [left; reflexivity | right]).

(** Transaction [i] takes the system to the state [next]. *)
Ltac take i next :=
  apply (rtc_l step _ next);
  [ exists i;
    match goal with
    | |- sys_step i ?s = _ =>
        destruct (sys_step i s) as [s'|] eqn:Hstep; eval_step Hstep;
        [injection Hstep as <-; reflexivity|discriminate Hstep]
    end
  | ].

Lemma start_waiting :
  start db [p1; p2] = mkSys db [waiting p1 k; waiting p2 k].
Proof. unfold start, begin_txn, waiting. cbn. by rewrite H1, H2. Qed.

(** The states of the race are closed under the steps of the system. *)
Lemma race_states_closed (s s' : Sys) :
  s ∈ race_states db k p1 p2 -> step s s' -> s' ∈ race_states db k p1 p2.
Proof.
  unfold race_states. cbn [fmap list_fmap attempt_states app].
  rewrite !elem_of_cons, elem_of_nil.
  intros Hs [i Hstep].
  repeat (destruct Hs as [->|Hs]); [..|done].
  all: destruct i as [|[|i]]; eval_step Hstep; try discriminate Hstep.
  all: injection Hstep as <-.
  all: pick_state.
Qed.

Lemma interleaving_race_states (s : Sys) :
  interleaving (start db [p1; p2]) s -> s ∈ race_states db k p1 p2.
Proof.
  revert s. apply (rtc_ind_r (fun s => s ∈ race_states db k p1 p2)).
  - rewrite start_waiting. apply list_elem_of_here.
  - intros s1 s2 _ Hstep Hs1. by eapply race_states_closed.
Qed.

(** The two states of the race in which both attempts have ended. *)
Lemma race_states_done (s : Sys) :
  s ∈ race_states db k p1 p2 -> all_done s -> one_winner k p1 p2 s.
Proof.
  unfold race_states. cbn [fmap list_fmap attempt_states app].
  rewrite !elem_of_cons, elem_of_nil.
  intros Hs Hdone.
  repeat (destruct Hs as [->|Hs]); [..|done].
  all: try (apply Forall_cons in Hdone as [[r Hr] Hdone];
            apply Forall_cons in Hdone as [[r' Hr'] _];
            cbn in Hr, Hr'; discriminate).
  - split; [by left|]. cbn. apply lookup_written.
  - split; [by right|]. cbn. apply lookup_written.
Qed.

(** No state of the race is stuck before both attempts have ended. *)
Lemma race_states_progress (s : Sys) :
  s ∈ race_states db k p1 p2 -> all_done s \/ exists s', step s s'.
Proof.
  unfold race_states. cbn [fmap list_fmap attempt_states app].
  rewrite !elem_of_cons, elem_of_nil.
  intros Hs.
  repeat (destruct Hs as [->|Hs]); [..|done].
  all: try (left; repeat constructor; by eexists).
  all: right.
  all: match goal with
       | |- exists s', step ?s s' =>
           first
             [ destruct (sys_step 0 s) as [s'|] eqn:Hstep;
               [by (exists s', 0%nat)|eval_step Hstep; discriminate Hstep]
             | destruct (sys_step 1 s) as [s'|] eqn:Hstep;
               [by (exists s', 1%nat)|eval_step Hstep; discriminate Hstep] ]
       end.
Qed.

(** The interleaving in which the first attempt runs to its end before
    the second starts. *)
Lemma first_then_second :
  exists final, interleaving (start db [p1; p2]) final /\ all_done final.
Proof.
  exists (mkSys (committed_by p1 k db) [won p1; lost p2 k]).
  split; [|repeat constructor; by eexists].
  rewrite start_waiting.
  take 0%nat (mkSys db [mkTxn p1 (Checking []) [k] ∅ None; waiting p2 k]).
  take 0%nat (mkSys db [mkTxn p1 (Decrementing [mkLine k 3]) [k] ∅ None;
                        waiting p2 k]).
  take 0%nat (mkSys db [mkTxn p1 (Decrementing []) [k; k] {[k := 2]} None;
                        waiting p2 k]).
  take 0%nat (mkSys db [mkTxn p1 Inserting [k; k] {[k := 2]} None; waiting p2 k]).
  take 0%nat (mkSys db [mkTxn p1 Committing [k; k] {[k := 2]} (Some p1);
                        waiting p2 k]).
  take 0%nat (mkSys (committed_by p1 k db) [won p1; waiting p2 k]).
  take 1%nat (mkSys (committed_by p1 k db) [won p1; lost p2 k]).
  apply rtc_refl.
Qed.
End Race.

(** C8, counterexample: when the id of the first request is already
    stored, the first request can take the lock, pass the check, fail
    on its insert and roll back; the second request then succeeds.  One
    request succeeded, but the other failed with a storage error, not
    with [InsufficientStock]. *)
Lemma concurrent_reservations_taken_id :
  ~ no_oversell_as_stated five_of_X_R1_taken "X"
      (mkReservation "R1" "O1" [mkLine "X" 3] "reserved")
      (mkReservation "R2" "O2" [mkLine "X" 3] "reserved").
Proof.
  intros H.
  destruct (run [0; 0; 0; 0; 0; 1; 1; 1; 1; 1; 1]%nat
              (start five_of_X_R1_taken
                 [mkReservation "R1" "O1" [mkLine "X" 3] "reserved";
                  mkReservation "R2" "O2" [mkLine "X" 3] "reserved"]))
    as [final|] eqn:Hrun; [|vm_compute in Hrun; discriminate Hrun].
  assert (Hanswers : answers final =
            [Done (Raise (reserve_failure
                            (IntegrityError "inventory_reservations" "R1")));
             Done (Return (mkReservation "R2" "O2" [mkLine "X" 3] "reserved"))]).
  { vm_compute in Hrun. injection Hrun as <-. reflexivity. }
  destruct (H eq_refl eq_refl eq_refl final (run_interleaving _ _ _ Hrun))
    as [[Ha|Ha] _].
  - apply (proj1 (Forall_fmap tx_pc (fun pc => exists r, pc = Done r) _)).
    fold (answers final). rewrite Hanswers. repeat constructor; by eexists.
  - rewrite Hanswers in Ha. discriminate Ha.
  - rewrite Hanswers in Ha. discriminate Ha.
Qed.

(** C8, as the code has it: take two concurrent [create_reservation]
    requests for three units of one SKU of which five are in stock,
    with reservation ids that are not stored yet.  Every interleaving of
    their statements can be continued until both have ended, and when
    both have ended exactly one has succeeded, the other has failed
    with [InsufficientStock], and the committed quantity is two. *)
Theorem concurrent_reservations_one_winner
    (db : DB) (k : string) (p1 p2 : InventoryReservationIn) :
  inventory db !! k = Some 5 ->
  res_items p1 = [mkLine k 3] ->
  res_items p2 = [mkLine k 3] ->
  inventory_reservations db !! res_id p1 = None ->
  inventory_reservations db !! res_id p2 = None ->
  (exists final, interleaving (start db [p1; p2]) final /\ all_done final) /\
  (forall s, interleaving (start db [p1; p2]) s ->
             (all_done s \/ exists s', step s s') /\
             (all_done s -> one_winner k p1 p2 s)).
Proof.
  intros Hk H1 H2 F1 F2. split.
  - apply (first_then_second db k p1 p2); assumption.
  - intros s Hs.
    assert (Hin : s ∈ race_states db k p1 p2)
      by (apply (interleaving_race_states db k p1 p2); assumption).
    split.
    + apply (race_states_progress db k p1 p2); assumption.
    + intros Hdone. apply (race_states_done db k p1 p2 s); assumption.
Qed.

Lemma concurrent_reservations_one_winner_witness :
  let p1 := mkReservation "R1" "O1" [mkLine "X" 3] "reserved" in
  let p2 := mkReservation "R2" "O2" [mkLine "X" 3] "reserved" in
  (exists final, interleaving (start five_of_X [p1; p2]) final /\ all_done final) /\
  (forall s, interleaving (start five_of_X [p1; p2]) s ->
             (all_done s \/ exists s', step s s') /\
             (all_done s -> one_winner "X" p1 p2 s)).
Proof.
  cbv zeta.
  apply (concurrent_reservations_one_winner five_of_X "X"
           (mkReservation "R1" "O1" [mkLine "X" 3] "reserved")
           (mkReservation "R2" "O2" [mkLine "X" 3] "reserved"));
    reflexivity.
Defined.

(** ** One attempt alone

    A transaction that runs with no other is the handler of the
    sequential embedding read one statement at a time: it ends, with the
    answer and the committed database of [request (create_reservation p)]. *)

Lemma solo_step (G G' : DB) (t t' : Txn) :
  txn_step G [] t = Some (G', t') -> step (mkSys G [t]) (mkSys G' [t']).
Proof. intros Hstep. exists 0%nat. unfold sys_step. cbn. by rewrite Hstep. Qed.

Lemma view_committed (G : DB) (t : Txn) (k : string) :
  tx_inventory t = ∅ -> view G t k = inventory G !! k.
Proof. intros Hpending. unfold view. by rewrite Hpending, (left_id_L ∅ (∪)). Qed.

Lemma solo_checking (db : DB) (p : InventoryReservationIn) (rest : list Line)
    (locks : list string) :
  exists locks',
    interleaving
      (mkSys db [mkTxn p (Checking rest) locks ∅ None])
      (mkSys db [match validate (inventory db) rest with
                 | Some e => mkTxn p (Done (Raise e)) [] ∅ None
                 | None => mkTxn p (Checking []) locks' ∅ None
                 end]).
Proof.
  revert locks. induction rest as [|it rest IH]; intros locks.
  - exists locks. apply rtc_refl.
  - cbn [validate].
    destruct (inventory db !! sku it) as [c|] eqn:Hrow.
    + destruct (decide (c < qty it)) as [Hlt|Hge].
      * exists locks. apply rtc_once, solo_step. cbn.
        rewrite view_committed, Hrow by done. cbn. by rewrite decide_True.
      * destruct (IH (sku it :: locks)) as [locks' Hrest]. exists locks'.
        eapply rtc_l; [|exact Hrest]. apply solo_step. cbn.
        rewrite view_committed, Hrow by done. cbn. by rewrite decide_False.
    + exists locks. apply rtc_once, solo_step. cbn.
      by rewrite view_committed, Hrow by done.
Qed.

Lemma solo_decrementing (db : DB) (p : InventoryReservationIn) (rest : list Line)
    (locks : list string) (pending : gmap string Z) :
  exists locks' pending',
    interleaving
      (mkSys db [mkTxn p (Decrementing rest) locks pending None])
      (mkSys db [mkTxn p (Decrementing []) locks' pending' None]) /\
    pending' ∪ inventory db = decrement_all (pending ∪ inventory db) rest.
Proof.
  revert locks pending. induction rest as [|it rest IH]; intros locks pending.
  - exists locks, pending. split; [apply rtc_refl|done].
  - unfold decrement_all. cbn [foldl].
    destruct ((pending ∪ inventory db) !! sku it) as [c|] eqn:Hrow.
    + destruct (IH (sku it :: locks) (<[sku it := c + - qty it]> pending))
        as (locks' & pending' & Hrest & Hpending).
      exists locks', pending'. split.
      * eapply rtc_l; [|exact Hrest]. apply solo_step. cbn. unfold view. cbn.
        by rewrite Hrow.
      * rewrite Hpending. unfold decrement_all. f_equal.
        apply map_eq. intros k. rewrite lookup_alter.
        destruct (decide (sku it = k)) as [<-|Hne].
        -- rewrite Hrow. cbn. apply lookup_union_Some_l, lookup_insert_eq.
        -- rewrite !lookup_union, lookup_insert_ne by done. done.
    + destruct (IH locks pending) as (locks' & pending' & Hrest & Hpending).
      exists locks', pending'. split.
      * eapply rtc_l; [|exact Hrest]. apply solo_step. cbn. unfold view. cbn.
        by rewrite Hrow.
      * rewrite Hpending. unfold decrement_all. f_equal.
        apply map_eq. intros k. rewrite lookup_alter.
        destruct (decide (sku it = k)) as [<-|Hne]; [by rewrite Hrow|done].
Qed.

Lemma solo_attempt (p : InventoryReservationIn) (db : DB) :
  exists final,
    interleaving (start db [p]) final /\
    answers final = [Done (fst (request (create_reservation p) db))] /\
    sys_db final = snd (request (create_reservation p) db).
Proof.
  rewrite create_reservation_request.
  destruct (solo_checking db p (res_items p) []) as [locks Hcheck].
  destruct (validate (inventory db) (res_items p)) as [e|] eqn:Hv.
  - eexists. split; [exact Hcheck|]. done.
  - destruct (solo_decrementing db p (res_items p) locks ∅)
      as (locks' & pending & Hdec & Hpending).
    rewrite (left_id_L ∅ (∪)) in Hpending.
    assert (Hinsert : interleaving (start db [p])
              (mkSys db [mkTxn p Inserting locks' pending None])).
    { eapply rtc_trans; [exact Hcheck|].
      eapply rtc_l; [by apply solo_step|].
      eapply rtc_trans; [exact Hdec|].
      apply rtc_once. by apply solo_step. }
    destruct (inventory_reservations db !! res_id p) as [old|] eqn:Hid.
    + eexists. split.
      * eapply rtc_trans; [exact Hinsert|].
        apply rtc_once, solo_step. cbn. by rewrite Hid.
      * done.
    + eexists. split.
      * eapply rtc_trans; [exact Hinsert|].
        eapply rtc_l; [apply solo_step; cbn; by rewrite Hid|].
        apply rtc_once. by apply solo_step.
      * cbn. by rewrite Hpending.
Qed.

(** ** Reading reservations *)

Lemma get_reservation_request (rid : string) (db : DB) :
  request (get_reservation rid) db =
  (match inventory_reservations db !! rid with
   | Some row => Return row
   | None => Raise ReservationNotFound
   end, db).
Proof.
  unfold request, get_reservation, bind, reservations_select, query. cbn.
  by destruct (inventory_reservations db !! rid).
Qed.

(** X1: what [get_reservation] answers follows what was stored.  After
    a reservation was created, its id answers with the payload and every
    other id answers as before; after a reservation was deleted, its id
    answers 404 and every other id answers as before.  Reading changes
    nothing. *)
Theorem get_reservation_follows_store
    (p : InventoryReservationIn) (rid : string) (db db' : DB) :
  (request (create_reservation p) db = (Return p, db') ->
   request (get_reservation (res_id p)) db' = (Return p, db') /\
   (forall other, other <> res_id p ->
      fst (request (get_reservation other) db')
      = fst (request (get_reservation other) db)))
  /\ (request (delete_reservation rid) db = (Return tt, db') ->
      request (get_reservation rid) db' = (Raise ReservationNotFound, db') /\
      (forall other, other <> rid ->
         fst (request (get_reservation other) db')
         = fst (request (get_reservation other) db))).
Proof.
  split.
  - rewrite create_reservation_request.
    destruct (validate _ _); [done|].
    destruct (inventory_reservations db !! res_id p) eqn:Hid; [done|].
    intros [= <-]. rewrite !get_reservation_request. cbn.
    rewrite lookup_insert_eq. split; [done|].
    intros other Hother. rewrite !get_reservation_request. cbn.
    by rewrite lookup_insert_ne.
  - rewrite delete_reservation_request.
    destruct (inventory_reservations db !! rid) as [ex|] eqn:Hex.
    + intros [= <-]. rewrite !get_reservation_request. cbn.
      rewrite lookup_delete_eq. split; [done|].
      intros other Hother. rewrite !get_reservation_request. cbn.
      by rewrite lookup_delete_ne.
    + intros [= <-]. rewrite get_reservation_request, Hex. done.
Qed.

Lemma get_reservation_follows_store_witness :
  let p := mkReservation "R9" "O9" [mkLine "X" 1] "reserved" in
  let db' := snd (request (create_reservation p) two_of_X_reserved) in
  request (get_reservation "R9") db' = (Return p, db') /\
  request (get_reservation "R1") (snd (request (delete_reservation "R1") db'))
  = (Raise ReservationNotFound, snd (request (delete_reservation "R1") db')).
Proof.
  cbv zeta. split.
  - apply (proj1 (get_reservation_follows_store
                    (mkReservation "R9" "O9" [mkLine "X" 1] "reserved") "R9"
                    two_of_X_reserved
                    (snd (request (create_reservation
                                     (mkReservation "R9" "O9" [mkLine "X" 1] "reserved"))
                                  two_of_X_reserved)))).
    vm_compute. reflexivity.
  - apply (proj2 (get_reservation_follows_store
                    (mkReservation "R9" "O9" [mkLine "X" 1] "reserved") "R1"
                    (snd (request (create_reservation
                                     (mkReservation "R9" "O9" [mkLine "X" 1] "reserved"))
                                  two_of_X_reserved))
                    (snd (request (delete_reservation "R1")
                            (snd (request (create_reservation
                                             (mkReservation "R9" "O9" [mkLine "X" 1]
                                                "reserved"))
                                          two_of_X_reserved)))))).
    vm_compute. reflexivity.
Defined.

(** X2: an update whose payload carries another id moves the record.
    When the new id is free the update succeeds, the old id then answers
    404 and the new id answers with the payload; when the new id is in
    use the update fails with a storage error and nothing changes. *)
Theorem update_reservation_moves_record
    (rid : string) (ex q : InventoryReservationIn) (db : DB) :
  inventory_reservations db !! rid = Some ex ->
  res_id q <> rid ->
  match inventory_reservations db !! res_id q with
  | None =>
      exists db',
        request (update_reservation rid q) db = (Return q, db') /\
        request (get_reservation rid) db' = (Raise ReservationNotFound, db') /\
        request (get_reservation (res_id q)) db' = (Return q, db') /\
        size (inventory_reservations db') = size (inventory_reservations db)
  | Some _ =>
      request (update_reservation rid q) db
      = (Raise (update_failure
                  (IntegrityError "inventory_reservations" (res_id q))), db)
  end.
Proof.
  intros Hex Hne. rewrite update_reservation_request, Hex.
  destruct (inventory_reservations db !! res_id q) as [other|] eqn:Hq.
  - rewrite decide_True; [done|]. split; [done|by eexists].
  - rewrite decide_False by (intros [_ [? ?]]; done).
    eexists. split; [done|]. rewrite !get_reservation_request. cbn.
    rewrite lookup_insert_eq, lookup_insert_ne, lookup_delete_eq by done.
    repeat split.
    rewrite map_size_insert_None by (by rewrite lookup_delete_ne).
    pose proof (map_size_delete rid (inventory_reservations db)) as Hsize.
    rewrite Hex in Hsize. rewrite Hsize.
    assert (size (inventory_reservations db) <> 0)%nat; [|lia].
    intros Hz. apply map_size_empty_inv in Hz. by rewrite Hz in Hex.
Qed.

Lemma update_reservation_moves_record_witness :
  exists db',
    request (update_reservation "R1" (mkReservation "R2" "O1" [] "reserved"))
            two_of_X_reserved
    = (Return (mkReservation "R2" "O1" [] "reserved"), db') /\
    request (get_reservation "R1") db' = (Raise ReservationNotFound, db') /\
    request (get_reservation "R2") db'
    = (Return (mkReservation "R2" "O1" [] "reserved"), db') /\
    size (inventory_reservations db') = size (inventory_reservations two_of_X_reserved).
Proof.
  apply (update_reservation_moves_record "R1"
           (mkReservation "R1" "O1" [mkLine "X" 3] "reserved")
           (mkReservation "R2" "O1" [] "reserved") two_of_X_reserved).
  - vm_compute. reflexivity.
  - discriminate.
Defined.

(** X3: [list_reservations] answers with the stored records, each one
    once: a record is listed exactly when it is stored under some id,
    and there are as many as the table has rows.  A reservation that was
    created is one more entry of the listing, whose other entries are
    those of the listing before. *)
Theorem list_reservations_lists_store (p : InventoryReservationIn) (db db' : DB) :
  exists l,
    request list_reservations db = (Return l, db) /\
    (forall r, r ∈ l <-> exists rid, inventory_reservations db !! rid = Some r) /\
    length l = size (inventory_reservations db) /\
    (request (create_reservation p) db = (Return p, db') ->
     exists l', request list_reservations db' = (Return l', db') /\ l' ≡ₚ p :: l).
Proof.
  eexists. split; [reflexivity|]. cbn. split; [|split].
  - intros r. rewrite list_elem_of_fmap. split.
    + intros ([rid r'] & -> & Hin). exists rid. by apply elem_of_map_to_list.
    + intros [rid Hrid]. exists (rid, r). split; [done|].
      by apply elem_of_map_to_list.
  - by rewrite length_fmap, length_map_to_list.
  - rewrite create_reservation_request.
    destruct (validate _ _); [done|].
    destruct (inventory_reservations db !! res_id p) eqn:Hid; [done|].
    intros [= <-]. eexists. split; [reflexivity|]. cbn.
    by rewrite map_to_list_insert.
Qed.

Lemma list_reservations_lists_store_witness :
  let p := mkReservation "R9" "O9" [mkLine "X" 1] "reserved" in
  let db' := snd (request (create_reservation p) two_of_X_reserved) in
  exists l l',
    request list_reservations two_of_X_reserved = (Return l, two_of_X_reserved) /\
    request list_reservations db' = (Return l', db') /\
    l' ≡ₚ p :: l.
Proof.
  cbv zeta.
  destruct (list_reservations_lists_store
              (mkReservation "R9" "O9" [mkLine "X" 1] "reserved")
              two_of_X_reserved
              (snd (request (create_reservation
                               (mkReservation "R9" "O9" [mkLine "X" 1] "reserved"))
                            two_of_X_reserved)))
    as (l & Hl & _ & _ & Hcreate).
  destruct Hcreate as (l' & Hl' & Hperm); [vm_compute; reflexivity|].
  exists l, l'. split; [exact Hl|]. split; [exact Hl'|exact Hperm].
Defined.

(** ** Stock on the shelf and stock held *)

Lemma held_commute (k : string) (r1 r2 : InventoryReservationIn) (acc : Z) :
  held k r1 + (held k r2 + acc) = held k r2 + (held k r1 + acc).
Proof. lia. Qed.

Lemma held_reserved (k : string) (r : InventoryReservationIn) :
  res_status r = "reserved" -> held k r = sum_qty k (res_items r).
Proof. intros Hr. unfold held. by rewrite decide_True. Qed.

Lemma held_other (k : string) (r : InventoryReservationIn) :
  res_status r <> "reserved" -> held k r = 0.
Proof. intros Hr. unfold held. by rewrite decide_False. Qed.

Lemma outstanding_insert (k rid : string) (r : InventoryReservationIn)
    (t : gmap string InventoryReservationIn) :
  t !! rid = None -> outstanding k (<[rid := r]> t) = held k r + outstanding k t.
Proof.
  intros Hfree. unfold outstanding.
  rewrite map_fold_insert_L; [done| |done]. intros. apply held_commute.
Qed.

Lemma outstanding_delete (k rid : string) (r : InventoryReservationIn)
    (t : gmap string InventoryReservationIn) :
  t !! rid = Some r -> outstanding k t = held k r + outstanding k (delete rid t).
Proof.
  intros Hrid. unfold outstanding.
  rewrite (map_fold_delete_L _ _ rid r); [done| |done]. intros. apply held_commute.
Qed.

(** X4: for a SKU that has a row, the stock on the shelf plus the stock
    held by the stored reservations of status [reserved] is the same
    before and after a reservation is created with status [reserved],
    before and after a reserved reservation is released, and before and
    after a reserved reservation is deleted. *)
Theorem reserve_release_delete_conserve_stock
    (k : string) (current : Z) (db db' : DB) :
  inventory db !! k = Some current ->
  (forall p,
      res_status p = "reserved" ->
      request (create_reservation p) db = (Return p, db') ->
      exists current',
        inventory db' !! k = Some current' /\
        current' + outstanding k (inventory_reservations db')
        = current + outstanding k (inventory_reservations db))
  /\ (forall rid ex q,
      inventory_reservations db !! rid = Some ex ->
      res_status ex = "reserved" -> res_status q = "released" ->
      request (update_reservation rid q) db = (Return q, db') ->
      exists current',
        inventory db' !! k = Some current' /\
        current' + outstanding k (inventory_reservations db')
        = current + outstanding k (inventory_reservations db))
  /\ (forall rid ex,
      inventory_reservations db !! rid = Some ex ->
      res_status ex = "reserved" ->
      request (delete_reservation rid) db = (Return tt, db') ->
      exists current',
        inventory db' !! k = Some current' /\
        current' + outstanding k (inventory_reservations db')
        = current + outstanding k (inventory_reservations db)).
Proof.
  intros Hk. split; [|split].
  - intros p Hp. rewrite create_reservation_request.
    destruct (validate _ _); [done|].
    destruct (inventory_reservations db !! res_id p) eqn:Hid; [done|].
    intros [= <-]. cbn. rewrite decrement_all_lookup, Hk. cbn.
    eexists. split; [done|]. rewrite outstanding_insert by done.
    rewrite held_reserved by done. lia.
  - intros rid ex q Hex Hres Hrel. rewrite update_reservation_request, Hex.
    destruct (decide _) as [|Hfree]; [done|]. intros [= <-]. cbn.
    unfold released_inventory. rewrite decide_True by done.
    rewrite restore_all_lookup, Hk. eexists. split; [done|].
    rewrite outstanding_insert.
    + rewrite (outstanding_delete k rid ex (inventory_reservations db)) by done.
      rewrite (held_reserved k ex), (held_other k q) by (by rewrite ?Hrel). lia.
    + destruct (decide (res_id q = rid)) as [->|Hne].
      * apply lookup_delete_eq.
      * rewrite lookup_delete_ne by done.
        destruct (inventory_reservations db !! res_id q) eqn:Hq; [|done].
        exfalso. apply Hfree. split; [done|by eexists].
  - intros rid ex Hex Hres. rewrite delete_reservation_request, Hex.
    intros [= <-]. cbn. rewrite decide_True by done.
    rewrite restore_all_lookup, Hk. eexists. split; [done|].
    rewrite (outstanding_delete k rid ex (inventory_reservations db)) by done.
    rewrite held_reserved by done. lia.
Qed.

Lemma reserve_release_delete_conserve_stock_witness :
  let db' := snd (request (delete_reservation "R1") two_of_X_reserved) in
  exists current',
    inventory db' !! "X" = Some current' /\
    current' + outstanding "X" (inventory_reservations db')
    = 2 + outstanding "X" (inventory_reservations two_of_X_reserved).
Proof.
  cbv zeta.
  apply (proj2 (proj2 (reserve_release_delete_conserve_stock "X" 2
                         two_of_X_reserved
                         (snd (request (delete_reservation "R1") two_of_X_reserved))
                         ltac:(vm_compute; reflexivity)))
           "R1" (mkReservation "R1" "O1" [mkLine "X" 3] "reserved")).
  - vm_compute. reflexivity.
  - reflexivity.
  - vm_compute. reflexivity.
Defined.

(** X5: committing a reserved reservation leaves the shelf as it is and
    ends the hold: for a SKU that has a row, the stock on the shelf plus
    the stock held goes down by the total of the reservation's lines for
    that SKU. *)
Theorem commit_consumes_held_stock
    (k rid : string) (current : Z) (ex q : InventoryReservationIn) (db db' : DB) :
  inventory db !! k = Some current ->
  inventory_reservations db !! rid = Some ex ->
  res_status ex = "reserved" -> res_status q = "committed" ->
  request (update_reservation rid q) db = (Return q, db') ->
  inventory db' = inventory db /\
  current + outstanding k (inventory_reservations db')
  = current + outstanding k (inventory_reservations db) - sum_qty k (res_items ex).
Proof.
  intros Hk Hex Hres Hcom. rewrite update_reservation_request, Hex.
  destruct (decide _) as [|Hfree]; [done|]. intros [= <-]. cbn.
  unfold released_inventory.
  rewrite decide_False by (rewrite Hcom; intros [_ ?]; discriminate).
  split; [done|].
  rewrite outstanding_insert.
  - rewrite (outstanding_delete k rid ex (inventory_reservations db)) by done.
    rewrite (held_reserved k ex), (held_other k q) by (by rewrite ?Hcom). lia.
  - destruct (decide (res_id q = rid)) as [->|Hne].
    + apply lookup_delete_eq.
    + rewrite lookup_delete_ne by done.
      destruct (inventory_reservations db !! res_id q) eqn:Hq; [|done].
      exfalso. apply Hfree. split; [done|by eexists].
Qed.

Lemma commit_consumes_held_stock_witness :
  let q := mkReservation "R1" "O1" [mkLine "X" 3] "committed" in
  let db' := snd (request (update_reservation "R1" q) two_of_X_reserved) in
  inventory db' = inventory two_of_X_reserved /\
  2 + outstanding "X" (inventory_reservations db')
  = 2 + outstanding "X" (inventory_reservations two_of_X_reserved)
    - sum_qty "X" [mkLine "X" 3].
Proof.
  cbv zeta.
  apply (commit_consumes_held_stock "X" "R1" 2
           (mkReservation "R1" "O1" [mkLine "X" 3] "reserved")
           (mkReservation "R1" "O1" [mkLine "X" 3] "committed")
           two_of_X_reserved).
  - vm_compute. reflexivity.
  - vm_compute. reflexivity.
  - reflexivity.
  - reflexivity.
  - vm_compute. reflexivity.
Defined.

(** ** Inventory rows: deleting and reading *)

Lemma delete_inventory_request (s : string) (db : DB) :
  request (delete_inventory s) db = (Return tt, set_inventory (delete s) db).
Proof. reflexivity. Qed.

(** X6: [delete_inventory] always succeeds, removes the row of its SKU
    and touches nothing else; deleting again changes nothing.  When a
    reserved reservation is released after the row of a SKU was deleted,
    the row comes back holding the total of the reservation's lines for
    that SKU and no more: what was on the shelf before the deletion is
    not restored. *)
Theorem delete_inventory_then_release
    (k rid : string) (ex q : InventoryReservationIn) (db : DB) :
  let db1 := snd (request (delete_inventory k) db) in
  (request (delete_inventory k) db = (Return tt, db1) /\
   inventory db1 !! k = None /\
   (forall k', k' <> k -> inventory db1 !! k' = inventory db !! k') /\
   inventory_reservations db1 = inventory_reservations db /\
   orders db1 = orders db /\
   request (delete_inventory k) db1 = (Return tt, db1))
  /\ (inventory_reservations db !! rid = Some ex ->
      res_status ex = "reserved" -> res_status q = "released" ->
      res_id q = rid ->
      exists db2,
        request (update_reservation rid q) db1 = (Return q, db2) /\
        inventory db2 !! k =
          if decide (Exists (fun it => sku it = k) (res_items ex))
          then Some (sum_qty k (res_items ex))
          else None).
Proof.
  cbv zeta. rewrite !delete_inventory_request. cbn. split.
  - split; [done|]. split; [apply lookup_delete_eq|].
    split; [by intros k' Hk'; apply lookup_delete_ne|].
    repeat split. unfold set_inventory. cbn. by rewrite delete_delete_eq.
  - intros Hex Hres Hrel Hid.
    rewrite update_reservation_request. cbn. rewrite Hex.
    rewrite decide_False by (intros [? _]; done).
    eexists. split; [done|]. cbn. unfold released_inventory.
    rewrite decide_True by done.
    by rewrite restore_all_lookup, lookup_delete_eq.
Qed.

Lemma delete_inventory_then_release_witness :
  let q := mkReservation "R1" "O1" [] "released" in
  let db1 := snd (request (delete_inventory "X") two_of_X_reserved) in
  exists db2,
    request (update_reservation "R1" q) db1 = (Return q, db2) /\
    inventory db2 !! "X" = Some 3.
Proof.
  cbv zeta.
  destruct (proj2 (delete_inventory_then_release "X" "R1"
                     (mkReservation "R1" "O1" [mkLine "X" 3] "reserved")
                     (mkReservation "R1" "O1" [] "released") two_of_X_reserved))
    as (db2 & Hrun & Hk).
  - vm_compute. reflexivity.
  - reflexivity.
  - reflexivity.
  - reflexivity.
  - exists db2. split; [exact Hrun|]. rewrite Hk. vm_compute. reflexivity.
Defined.

Lemma inventory_row_refused (s : string) (q : Z) :
  InventoryOut (inventory_row s q) = None.
Proof.
  unfold InventoryOut, InventoryIn_validate, inventory_row.
  by rewrite !lookup_insert_ne, lookup_empty by done.
Qed.

(** X7: the two read endpoints of the inventory never answer with a
    row.  Their [response_model] is [InventoryOut], whose fields are id,
    orderId, items and status, and a row has the keys sku and quantity:
    for a SKU that is stored the answer of the handler is refused, for a
    SKU that is not stored the handler answers 404; the listing answers
    only when the table is empty, with the empty list.  The database is
    as before. *)
Theorem get_inventory_never_answers (s : string) (db : DB) :
  get_inventory_endpoint s db =
  (match inventory db !! s with
   | Some _ => ResponseValidationError
   | None => Failure (HTTPException 404 "sku not found")
   end, db)
  /\ list_inventory_endpoint db =
     (if decide (inventory db = ∅) then Answer [] else ResponseValidationError, db).
Proof.
  split.
  - unfold get_inventory_endpoint, request, get_inventory, bind, query. cbn.
    destruct (inventory db !! s) as [q|]; cbn; [|done].
    by rewrite inventory_row_refused.
  - unfold list_inventory_endpoint, request, list_inventory, query. cbn.
    destruct (decide (inventory db = ∅)) as [Hempty|Hrows].
    + by rewrite Hempty, map_to_list_empty.
    + destruct (map_to_list (inventory db)) as [|[k q] rest] eqn:Hlist.
      * by apply map_to_list_empty_iff in Hlist.
      * rewrite (mapM_None_2 InventoryOut); [done|].
        apply Exists_cons_hd. apply inventory_row_refused.
Qed.

(** ** Orders: creating, reading, deleting *)

Lemma OrderIn_defaults_lookup (k : string) :
  OrderIn_defaults !! k =
  if decide (k = "userId") then Some JNull
  else if decide (k = "address") then Some JNull
  else if decide (k = "currency") then Some (JStr "INR")
  else if decide (k = "refund_attempt") then Some JNull
  else if decide (k = "payment_refund_status") then Some JNull
  else None.
Proof.
  unfold OrderIn_defaults. rewrite !lookup_insert, lookup_empty.
  repeat (case_decide; subst; try done).
Qed.

Lemma OrderIn_dict_lookup (p : OrderIn) (k : string) :
  OrderIn_dict p !! k =
  match OrderIn_dict_exclude_unset p !! k with
  | Some v => Some v
  | None => OrderIn_defaults !! k
  end.
Proof. apply merged_lookup. Qed.

Lemma OrderIn_dict_consumed (p : OrderIn) :
  consumed orders_columns (OrderIn_dict p).
Proof.
  intros k v. unfold OrderIn_dict. rewrite lookup_union_Some_raw.
  intros [Hk|[_ Hk]]; [by eapply exclude_unset_consumed|].
  rewrite OrderIn_defaults_lookup in Hk. unfold orders_columns.
  repeat (case_decide; [subst; rewrite !elem_of_cons; tauto|]). done.
Qed.

Lemma OrderIn_dict_columns (p : OrderIn) (k : string) :
  k ∈ orders_columns -> is_Some (OrderIn_dict p !! k).
Proof.
  unfold orders_columns. rewrite !elem_of_cons, elem_of_nil.
  rewrite OrderIn_dict_lookup, exclude_unset_lookup, OrderIn_defaults_lookup.
  intros Hk.
  repeat (destruct Hk as [->|Hk];
          [repeat (case_decide; try done); by destruct p as [? [] [] ? ? [] ? [] []]|]).
  done.
Qed.

Lemma OrderIn_dict_filled (p : OrderIn) :
  OrderIn_dict p ∪ orders_nulls = OrderIn_dict p.
Proof.
  apply map_eq. intros k. rewrite lookup_union.
  destruct (OrderIn_dict p !! k) as [v|] eqn:Hk; [by destruct (orders_nulls !! k)|].
  unfold orders_nulls. rewrite (not_elem_of_list_to_map_1 _ k); [done|].
  rewrite <- list_fmap_compose. cbn. intros Hin.
  destruct (OrderIn_dict_columns p k Hin) as [v Hv]. by rewrite Hv in Hk.
Qed.

Lemma create_order_request (p : OrderIn) (db : DB) :
  request (create_order p) db =
  match orders db !! o_id p with
  | Some _ => (Raise (SQLAlchemyError (IntegrityError "orders" (o_id p))), db)
  | None => (Return p, set_orders (insert (o_id p) (OrderIn_dict p)) db)
  end.
Proof.
  unfold request, create_order, bind, orders_insert.
  rewrite decide_True by apply OrderIn_dict_consumed.
  destruct (merged_required p OrderIn_defaults) as (Hid & Hitems & Htotal & Hstatus).
  fold (OrderIn_dict p) in Hid, Hitems, Htotal, Hstatus.
  unfold orders_not_null. cbn [existsb].
  rewrite Hid, Hitems, Htotal, Hstatus. cbn.
  unfold bind, column_str, ret, query. cbn.
  destruct (orders db !! o_id p); [done|].
  cbn. by rewrite OrderIn_dict_filled.
Qed.

Lemma get_order_request (oid : string) (db : DB) :
  request (get_order oid) db =
  (match orders db !! oid with
   | Some row => Return row
   | None => Raise (HTTPException 404 "order not found")
   end, db).
Proof.
  unfold request, get_order, bind, query. cbn. by destruct (orders db !! oid).
Qed.

Lemma validate_typed (body : dict) (p : OrderIn) :
  OrderIn_validate body = Return p -> OrderIn_typed p.
Proof.
  intros Hv. unfold OrderIn_validate in Hv.
  destruct (body !! "id") as [[]|]; try discriminate Hv.
  destruct (body !! "items") as [[]|]; try discriminate Hv.
  destruct (body !! "total") as [[]|]; try discriminate Hv.
  destruct (body !! "status") as [[]|]; try discriminate Hv.
  destruct (_ && _) eqn:Htyped in Hv; [|discriminate Hv]. injection Hv as <-.
  unfold OrderIn_typed. cbn.
  repeat (apply andb_prop in Htyped as [Htyped ?]). by repeat split.
Qed.

Lemma OrderIn_dict_optional (p : OrderIn) :
  OrderIn_dict p !! "userId" = Some (default JNull (o_userId p)) /\
  OrderIn_dict p !! "address" = Some (default JNull (o_address p)) /\
  OrderIn_dict p !! "currency" = Some (default (JStr "INR") (o_currency p)) /\
  OrderIn_dict p !! "refund_attempt" = Some (default JNull (o_refund_attempt p)) /\
  OrderIn_dict p !! "payment_refund_status"
  = Some (default JNull (o_payment_refund_status p)).
Proof.
  rewrite !OrderIn_dict_lookup, !exclude_unset_lookup, !OrderIn_defaults_lookup.
  repeat split; repeat (case_decide; try done);
    by destruct p as [? [] [] ? ? [] ? [] []].
Qed.

Lemma OrderIn_dict_of_filled (p : OrderIn) :
  OrderIn_dict (OrderIn_filled p) = OrderIn_dict p.
Proof.
  apply map_eq. intros k.
  rewrite !OrderIn_dict_lookup, !exclude_unset_lookup, OrderIn_defaults_lookup.
  cbn. repeat (case_decide; [by destruct p as [? [] [] ? ? [] ? [] []]|]). done.
Qed.

(** What was stored by [create_order] fits the response model of
    [get_order], which answers with it. *)
Lemma OrderOut_stored (p : OrderIn) :
  OrderIn_typed p -> OrderOut (OrderIn_dict p) = Some (OrderIn_dict p).
Proof.
  intros (Huser & Haddress & Hcurrency & Hrefund & Hstatus).
  unfold OrderOut, OrderIn_validate.
  destruct (merged_required p OrderIn_defaults) as (Hid & Hitems & Htotal & Hst).
  fold (OrderIn_dict p) in Hid, Hitems, Htotal, Hst.
  rewrite Hid, Hitems, Htotal, Hst.
  destruct (OrderIn_dict_optional p) as (-> & -> & -> & -> & ->).
  replace (_ && _) with true.
  - f_equal. apply (OrderIn_dict_of_filled p).
  - symmetry. repeat (apply andb_true_intro; split).
    + by destruct (o_userId p) as [[]|].
    + by destruct (o_address p) as [[]|].
    + by destruct (o_currency p) as [[]|].
    + by destruct (o_refund_attempt p) as [[]|].
    + by destruct (o_payment_refund_status p) as [[]|].
Qed.

(** X8: an order that was created is read back as it was sent, with the
    defaults of the fields the request left out (currency "INR", the
    others null).  For every body that [OrderIn] accepts: when the id is
    free, [POST /orders] stores the order and answers with it, and
    [GET /orders/{id}] then gives the same answer; when the id is in
    use, the insert is refused, the storage error is not translated and
    nothing changes. *)
Theorem create_order_then_get (body : dict) (p : OrderIn) (db : DB) :
  OrderIn_validate body = Return p ->
  match orders db !! o_id p with
  | None =>
      exists db',
        post_order body db = (Answer (OrderIn_dict p), db') /\
        get_order_endpoint (o_id p) db' = (Answer (OrderIn_dict p), db') /\
        (forall k, k ∈ orders_columns ->
           OrderIn_dict p !! k =
           match body !! k with
           | Some v => Some v
           | None => OrderIn_defaults !! k
           end) /\
        orders db' = <[o_id p := OrderIn_dict p]> (orders db) /\
        inventory db' = inventory db /\
        inventory_reservations db' = inventory_reservations db
  | Some _ =>
      post_order body db
      = (Failure (SQLAlchemyError (IntegrityError "orders" (o_id p))), db)
  end.
Proof.
  intros Hv. unfold post_order. rewrite Hv, create_order_request.
  destruct (orders db !! o_id p) as [old|] eqn:Hid; [done|].
  eexists. split; [done|]. cbn. split; [|split; [|done]].
  - unfold get_order_endpoint. rewrite get_order_request. cbn.
    rewrite lookup_insert_eq. cbn.
    by rewrite (OrderOut_stored p (validate_typed body p Hv)).
  - intros k Hk. rewrite OrderIn_dict_lookup.
    rewrite (validate_exclude_unset body p k Hv). by rewrite decide_True.
Qed.

Lemma create_order_then_get_witness :
  let body : dict :=
    <["id" := JStr "O2"]>
      (<["items" := JArr []]>
         (<["total" := JNum 5]> (<["status" := JStr "new"]> ∅))) in
  exists answer db',
    post_order body one_paid_order = (Answer answer, db') /\
    get_order_endpoint "O2" db' = (Answer answer, db') /\
    answer !! "currency" = Some (JStr "INR").
Proof.
  cbv zeta.
  pose proof (create_order_then_get
                (<["id" := JStr "O2"]>
                   (<["items" := JArr []]>
                      (<["total" := JNum 5]> (<["status" := JStr "new"]> ∅))))
                (mkOrderIn "O2" None None [] 5 None "new" None None)
                one_paid_order) as Hcreate.
  cbn [o_id] in Hcreate.
  assert (Hfree : orders one_paid_order !! "O2" = None)
    by (by apply lookup_singleton_ne).
  rewrite Hfree in Hcreate.
  destruct Hcreate as (db' & Hpost & Hget & Hfields & _).
  - vm_compute. reflexivity.
  - eexists _, db'. split; [exact Hpost|]. split; [exact Hget|].
    rewrite Hfields by (unfold orders_columns; rewrite !elem_of_cons; tauto).
    rewrite !lookup_insert_ne, lookup_empty by done.
    by rewrite OrderIn_defaults_lookup.
Defined.

Lemma delete_order_request (oid : string) (db : DB) :
  request (delete_order oid) db = (Return tt, set_orders (delete oid) db).
Proof. reflexivity. Qed.

(** X9: [delete_order] always succeeds and removes the order of its id
    alone: afterwards that id answers 404, every other order is stored
    as before and is still listed, inventory and reservations are
    untouched, and deleting again changes nothing. *)
Theorem delete_order_then_get (oid : string) (db : DB) :
  let db1 := snd (request (delete_order oid) db) in
  request (delete_order oid) db = (Return tt, db1) /\
  get_order_endpoint oid db1
  = (Failure (HTTPException 404 "order not found"), db1) /\
  (forall other, other <> oid -> orders db1 !! other = orders db !! other) /\
  (exists l,
      request list_orders db1 = (Return l, db1) /\
      forall row,
        row ∈ l <-> exists other, other <> oid /\ orders db !! other = Some row) /\
  inventory db1 = inventory db /\
  inventory_reservations db1 = inventory_reservations db /\
  request (delete_order oid) db1 = (Return tt, db1).
Proof.
  cbv zeta. rewrite !delete_order_request. cbn.
  split; [done|]. split; [|split; [|split]].
  - unfold get_order_endpoint. rewrite get_order_request. cbn.
    by rewrite lookup_delete_eq.
  - intros other Hother. by apply lookup_delete_ne.
  - eexists. split; [reflexivity|]. cbn.
    intros row. rewrite list_elem_of_fmap. split.
    + intros ([other row'] & -> & Hin). exists other.
      apply elem_of_map_to_list in Hin.
      apply lookup_delete_Some in Hin as [? ?]. by split.
    + intros (other & Hother & Hrow). exists (other, row). split; [done|].
      apply elem_of_map_to_list. by rewrite lookup_delete_ne.
  - repeat split. unfold set_orders. cbn. by rewrite delete_delete_eq.
Qed.

(** ** Orders: refund metadata *)

(** What the update statement of [orders] can do to a fresh session. *)
Lemma orders_update_cases (oid : string) (values : dict) (db : DB) :
  (exists e, orders_update oid values (mkSession db db)
             = (Raise (SQLAlchemyError e), mkSession db db))
  \/ (orders db !! oid = None /\
      orders_update oid values (mkSession db db) = (Return tt, mkSession db db))
  \/ (exists old k',
      orders db !! oid = Some old /\
      (k' = oid \/ orders db !! k' = None) /\
      (values ∪ old) !! "id" = Some (JStr k') /\
      existsb (fun c => is_null ((values ∪ old) !! c)) orders_not_null = false /\
      consumed orders_columns values /\
      orders_update oid values (mkSession db db)
      = (Return tt,
         mkSession db (set_orders (fun t => <[k' := values ∪ old]> (delete oid t)) db))).
Proof.
  unfold orders_update.
  destruct (decide (consumed orders_columns values)) as [Hcols|]; [|left; by eexists].
  unfold bind at 1. unfold query at 1. cbn.
  destruct (orders db !! oid) as [old|] eqn:Hold; [|right; left; done].
  destruct (is_null ((values ∪ old) !! "id") || _) eqn:Hnull;
    [left; by eexists|].
  unfold bind at 1. unfold column_str.
  destruct ((values ∪ old) !! "id") as [[| | |k'| |]|] eqn:Hid;
    try (left; by eexists).
  unfold ret, bind, query. cbn.
  destruct (decide (k' <> oid /\ is_Some (orders db !! k'))) as [|Hfree];
    [left; by eexists|].
  right; right. exists old, k'. split; [done|]. split.
  { destruct (decide (k' = oid)) as [|Hne]; [by left|right].
    destruct (orders db !! k') eqn:Hk'; [|done].
    exfalso. apply Hfree. split; [done|by eexists]. }
  split; [done|]. split; [by rewrite Hid|]. by split.
Qed.

Lemma filter_columns_nil (cols : list string) (payload : list (string * json)) :
  Forall (fun kv => kv.1 ∉ cols) payload ->
  filter (fun kv => kv.1 ∈ cols) payload = [].
Proof.
  induction 1 as [|kv rest Hkv _ IH]; [done|].
  by rewrite filter_cons, decide_False.
Qed.

(** X10: a body none of whose keys is a column of [orders], the empty
    body included, is answered with updated: false and the reason "no
    matching columns"; nothing is written, and the order need not
    exist. *)
Theorem add_refund_metadata_no_matching_columns
    (cols : list string) (oid : string) (payload : list (string * json)) (db : DB) :
  Forall (fun kv => kv.1 ∉ cols) payload ->
  request (add_refund_metadata cols oid payload) db = (Return not_updated, db).
Proof.
  intros Hnone. unfold request, add_refund_metadata, try_except_all.
  by rewrite (filter_columns_nil cols payload Hnone).
Qed.

Lemma add_refund_metadata_no_matching_columns_witness :
  request (add_refund_metadata orders_columns "nobody"
             [("refunded_at", JStr "today"); ("amount", JNum 3)]) one_paid_order
  = (Return not_updated, one_paid_order).
Proof.
  apply add_refund_metadata_no_matching_columns.
  repeat constructor; cbn; unfold orders_columns;
    rewrite !elem_of_cons, elem_of_nil; intros H;
    repeat (destruct H as [H|H]; [discriminate H|]); exact H.
Defined.

(** X11: whatever the body, [add_refund_metadata] either answers or
    fails with status 500.  When it fails nothing has changed.  When it
    answers, inventory and reservations are as before and the table of
    orders has as many rows as before; on an id that is not stored it
    changes nothing. *)
Theorem add_refund_metadata_safe
    (cols : list string) (oid : string) (payload : list (string * json))
    (db db' : DB) (r : outcome json) :
  request (add_refund_metadata cols oid payload) db = (r, db') ->
  ((exists detail, r = Raise (HTTPException 500 detail)) /\ db' = db)
  \/ ((exists answer, r = Return answer) /\
      inventory db' = inventory db /\
      inventory_reservations db' = inventory_reservations db /\
      size (orders db') = size (orders db) /\
      (orders db !! oid = None -> db' = db)).
Proof.
  unfold request, add_refund_metadata, try_except_all.
  destruct (filter _ payload) as [|kv rest] eqn:Hfilter.
  - intros [= <- <-]. right. split; [by eexists|]. by repeat split.
  - unfold bind at 1.
    destruct (orders_update_cases oid (list_to_map (kv :: rest)) db)
      as [[e ->] | [[Hmissing ->] | (old & k' & Hold & Hk' & _ & _ & _ & ->)]].
    + intros [= <- <-]. left. split; [by eexists|done].
    + intros [= <- <-]. right. split; [by eexists|]. by repeat split.
    + intros [= <- <-]. right. split; [by eexists|]. cbn.
      split; [done|]. split; [done|]. split; [|by rewrite Hold].
      rewrite map_size_insert_None.
      * pose proof (map_size_delete oid (orders db)) as Hsize.
        rewrite Hold in Hsize. rewrite Hsize.
        assert (size (orders db) <> 0)%nat; [|lia].
        intros Hz. apply map_size_empty_inv in Hz. by rewrite Hz in Hold.
      * destruct Hk' as [->|Hk']; [apply lookup_delete_eq|].
        destruct (decide (k' = oid)) as [->|Hne]; [apply lookup_delete_eq|].
        by rewrite lookup_delete_ne.
Qed.

Lemma add_refund_metadata_safe_witness :
  let r := request (add_refund_metadata orders_columns "O1"
                      [("id", JNull)]) one_paid_order in
  ((exists detail, fst r = Raise (HTTPException 500 detail)) /\ snd r = one_paid_order)
  \/ ((exists answer, fst r = Return answer) /\
      inventory (snd r) = inventory one_paid_order /\
      inventory_reservations (snd r) = inventory_reservations one_paid_order /\
      size (orders (snd r)) = size (orders one_paid_order) /\
      (orders one_paid_order !! "O1" = None -> snd r = one_paid_order)).
Proof.
  cbv zeta.
  apply (add_refund_metadata_safe orders_columns "O1" [("id", JNull)] one_paid_order).
  apply surjective_pairing.
Defined.

Lemma column_typed_column (k : string) (v : json) :
  column_typed (k, v) = true -> k ∈ orders_columns.
Proof.
  unfold column_typed, orders_columns. rewrite !elem_of_cons.
  repeat (case_decide; [intros _; tauto|]). done.
Qed.

Lemma column_typed_not_null (c : string) (v : json) :
  c ∈ orders_not_null -> column_typed (c, v) = true -> is_null (Some v) = false.
Proof.
  unfold orders_not_null. rewrite !elem_of_cons, elem_of_nil.
  intros Hc. unfold column_typed.
  repeat (destruct Hc as [->|Hc];
          [repeat case_decide; try (by destruct v);
           repeat match goal with H : _ \/ _ |- _ => destruct H as [H|H] end;
           discriminate|]).
  done.
Qed.

(** The values of the statement are the items of the body whose key is
    a column. *)
Lemma lookup_filter_columns (cols : list string) (payload : list (string * json))
    (k : string) :
  (list_to_map (filter (fun kv => kv.1 ∈ cols) payload) : dict) !! k =
  if decide (k ∈ cols) then (list_to_map payload : dict) !! k else None.
Proof.
  induction payload as [|[k0 v0] rest IH].
  - cbn. rewrite lookup_empty. by case_decide.
  - rewrite filter_cons. cbn [fst].
    destruct (decide (k0 ∈ cols)) as [Hk0|Hk0]; cbn [list_to_map foldr].
    + rewrite !lookup_insert. cbn [fst snd].
      destruct (decide (k0 = k)) as [<-|Hne].
      * by rewrite decide_True.
      * apply IH.
    + rewrite IH, lookup_insert. cbn [fst snd].
      destruct (decide (k0 = k)) as [<-|Hne]; [|done].
      by destruct (decide (k0 ∈ cols)).
Qed.

(** The update statement on a fresh session, when the database accepts
    it: no row of that id, or a row that keeps its id. *)
Lemma orders_update_missing (oid : string) (values : dict) (db : DB) :
  consumed orders_columns values ->
  orders db !! oid = None ->
  orders_update oid values (mkSession db db) = (Return tt, mkSession db db).
Proof.
  intros Hcols Hold. unfold orders_update.
  rewrite decide_True by done.
  unfold bind at 1. unfold query at 1. cbn. by rewrite Hold.
Qed.

Lemma orders_update_in_place (oid : string) (values old : dict) (db : DB) :
  consumed orders_columns values ->
  orders db !! oid = Some old ->
  (forall c, c ∈ orders_not_null -> is_null ((values ∪ old) !! c) = false) ->
  (values ∪ old) !! "id" = Some (JStr oid) ->
  orders_update oid values (mkSession db db)
  = (Return tt, mkSession db (set_orders (insert oid (values ∪ old)) db)).
Proof.
  intros Hcols Hold Hnull Hkey. unfold orders_update.
  rewrite decide_True by done.
  unfold bind at 1. unfold query at 1. cbn. rewrite Hold.
  rewrite !Hnull by (unfold orders_not_null; rewrite !elem_of_cons; tauto).
  cbn.
  rewrite Hkey. unfold bind, column_str, ret, query. cbn.
  rewrite decide_False by (intros [? _]; done).
  unfold execute, set_orders. cbn. by rewrite insert_delete_eq.
Qed.

(** X12: when the body has keys that are columns, other than the id, and
    their values have the types of those columns, the request answers
    with updated: true and those keys, in the order of the body.  The
    order of that id, if it is stored, has those columns set to the
    values of the body and every other column as before: the keys that
    are not columns are dropped.  If no order has that id the answer is
    the same and nothing is stored. *)
Theorem add_refund_metadata_applies_columns
    (cols : list string) (oid : string) (payload : list (string * json)) (db : DB) :
  let to_update := filter (fun kv => kv.1 ∈ cols) payload in
  to_update <> [] ->
  Forall (fun kv => column_typed kv = true) to_update ->
  "id" ∉ to_update.*1 ->
  match orders db !! oid with
  | Some old =>
      stored_order oid old ->
      exists new,
        request (add_refund_metadata cols oid payload) db
        = (Return (updated to_update.*1), set_orders (insert oid new) db) /\
        forall k,
          new !! k =
          match (if decide (k ∈ cols)
                 then (list_to_map payload : dict) !! k else None) with
          | Some v => Some v
          | None => old !! k
          end
  | None =>
      request (add_refund_metadata cols oid payload) db
      = (Return (updated to_update.*1), db)
  end.
Proof.
  cbv zeta. intros Hsome Htyped Hid.
  set (to_update := filter (fun kv => kv.1 ∈ cols) payload) in *.
  assert (Hvalues : forall k v,
            (list_to_map to_update : dict) !! k = Some v -> column_typed (k, v) = true).
  { intros k v Hk. apply elem_of_list_to_map_2 in Hk.
    rewrite Forall_forall in Htyped. by apply (Htyped (k, v)). }
  assert (Hcols : consumed orders_columns (list_to_map to_update)).
  { intros k v Hk. eapply column_typed_column, Hvalues, Hk. }
  assert (Hlookup : forall k, (list_to_map to_update : dict) !! k =
            if decide (k ∈ cols) then (list_to_map payload : dict) !! k else None).
  { intros k. apply lookup_filter_columns. }
  assert (Hkeyless : (list_to_map to_update : dict) !! "id" = None).
  { by apply not_elem_of_list_to_map_1. }
  assert (Hrun : forall s',
            orders_update oid (list_to_map to_update) (mkSession db db)
            = (Return tt, mkSession db s') ->
            request (add_refund_metadata cols oid payload) db
            = (Return (updated to_update.*1), s')).
  { intros s' Hs'. unfold request, add_refund_metadata, try_except_all.
    fold to_update. clearbody to_update.
    destruct to_update as [|kv rest]; [done|].
    unfold bind at 1. unfold bind at 1. by rewrite Hs'. }
  clearbody to_update.
  destruct (orders db !! oid) as [old|] eqn:Hold.
  - intros (Hstored & Hoid & Hnotnull).
    exists (list_to_map to_update ∪ old). split.
    + apply Hrun, orders_update_in_place; [done..| |].
      * intros c Hc. rewrite lookup_union.
        destruct ((list_to_map to_update : dict) !! c) as [v|] eqn:Hv.
        -- rewrite <- (column_typed_not_null c v Hc (Hvalues c v Hv)).
           by destruct (old !! c).
        -- rewrite Forall_forall in Hnotnull. rewrite <- (Hnotnull c Hc).
           by destruct (old !! c).
      * by rewrite lookup_union_r.
    + intros k. rewrite lookup_union, Hlookup.
      by destruct (if decide (k ∈ cols) then _ else _), (old !! k).
  - by apply Hrun, orders_update_missing.
Qed.

Lemma paid_order_stored : stored_order "O1" paid_order.
Proof.
  split; [|split].
  - unfold paid_order, orders_columns.
    repeat (apply map_Forall_insert_2; [rewrite !elem_of_cons; tauto|]).
    apply map_Forall_empty.
  - apply lookup_insert_eq.
  - unfold orders_not_null, paid_order.
    repeat (apply Forall_cons; split;
            [by rewrite ?lookup_insert_eq, ?lookup_insert_ne by done|]).
    apply Forall_nil_2.
Qed.

Lemma add_refund_metadata_applies_columns_witness :
  exists new,
    request (add_refund_metadata orders_columns "O1"
               [("refunded_at", JStr "today");
                ("payment_refund_status", JStr "refunded")]) one_paid_order
    = (Return (updated ["payment_refund_status"]),
       set_orders (insert "O1" new) one_paid_order) /\
    new !! "payment_refund_status" = Some (JStr "refunded") /\
    new !! "refunded_at" = None /\
    new !! "status" = Some (JStr "paid").
Proof.
  assert (Hnotcol : "refunded_at" ∉ orders_columns).
  { unfold orders_columns. rewrite !elem_of_cons, elem_of_nil. intros Hin.
    repeat match goal with H : _ \/ _ |- _ => destruct H as [H|H] end;
      discriminate || done. }
  assert (Hcol : "payment_refund_status" ∈ orders_columns).
  { unfold orders_columns. rewrite !elem_of_cons. tauto. }
  assert (Hstatus : "status" ∈ orders_columns).
  { unfold orders_columns. rewrite !elem_of_cons. tauto. }
  assert (Hfilter : filter (fun kv : string * json => kv.1 ∈ orders_columns)
                      [("refunded_at", JStr "today");
                       ("payment_refund_status", JStr "refunded")]
                    = [("payment_refund_status", JStr "refunded")]).
  { by rewrite filter_cons, decide_False, filter_cons, decide_True. }
  assert (Hold : orders one_paid_order !! "O1" = Some paid_order)
    by apply lookup_singleton_eq.
  pose proof (add_refund_metadata_applies_columns orders_columns "O1"
                [("refunded_at", JStr "today");
                 ("payment_refund_status", JStr "refunded")] one_paid_order) as H.
  cbv zeta in H.
  rewrite Hfilter, Hold in H.
  destruct H as (new & Hrun & Hnew).
  - discriminate.
  - by apply Forall_cons.
  - cbn. rewrite elem_of_cons, elem_of_nil. intros [|[]]; discriminate.
  - apply paid_order_stored.
  - exists new. split; [exact Hrun|]. clear Hrun.
    rewrite !Hnew. clear Hnew. split; [|split].
    + rewrite decide_True by exact Hcol.
      cbn. by rewrite lookup_insert_ne, lookup_insert_eq.
    + rewrite decide_False by exact Hnotcol.
      unfold paid_order. by rewrite !lookup_insert_ne, lookup_empty.
    + rewrite decide_True by exact Hstatus.
      cbn. rewrite !lookup_insert_ne, lookup_empty by done.
      unfold paid_order. rewrite !lookup_insert_ne by done.
      apply lookup_insert_eq.
Defined.

(** ** Payments and shipments *)

Section FlatFacts.
Context {Row : Type}.
Variable table : string.
Variable key : Row -> string.
Variable not_found : string.

Lemma crud_create_fresh (p : Row) (t : gmap string Row) :
  t !! key p = None ->
  flat_request (crud_create table key p) t = (Return p, <[key p := p]> t).
Proof.
  intros Hfree. unfold flat_request, crud_create, flat_then, flat_insert.
  cbn. by rewrite Hfree.
Qed.

Lemma crud_create_taken (p : Row) (t : gmap string Row) :
  is_Some (t !! key p) ->
  flat_request (crud_create table key p) t
  = (Raise (SQLAlchemyError (IntegrityError table (key p))), t).
Proof.
  intros [r Hr]. unfold flat_request, crud_create, flat_then, flat_insert.
  cbn. by rewrite Hr.
Qed.

Lemma crud_get_stored (rid : string) (r : Row) (t : gmap string Row) :
  t !! rid = Some r ->
  flat_request (crud_get not_found rid) t = (Return r, t).
Proof. intros Hr. unfold flat_request, crud_get. cbn. by rewrite Hr. Qed.

Lemma crud_get_missing (rid : string) (t : gmap string Row) :
  t !! rid = None ->
  flat_request (@crud_get Row not_found rid) t
  = (Raise (HTTPException 404 not_found), t).
Proof. intros Hr. unfold flat_request, crud_get. cbn. by rewrite Hr. Qed.

Lemma crud_update_missing (rid : string) (p : Row) (t : gmap string Row) :
  t !! rid = None ->
  flat_request (crud_update table key rid p) t = (Return p, t).
Proof.
  intros Hr. unfold flat_request, crud_update, flat_then, flat_update.
  cbn. by rewrite Hr.
Qed.

Lemma crud_update_stored (rid : string) (p : Row) (t : gmap string Row) :
  is_Some (t !! rid) ->
  key p = rid \/ t !! key p = None ->
  flat_request (crud_update table key rid p) t
  = (Return p, <[key p := p]> (delete rid t)).
Proof.
  intros [r Hr] Hfree. unfold flat_request, crud_update, flat_then, flat_update.
  cbn. rewrite Hr. rewrite decide_False; [done|].
  intros [Hne [r' Hr']]. destruct Hfree as [|Hfree]; [done|].
  by rewrite Hfree in Hr'.
Qed.

Lemma crud_update_taken (rid : string) (p : Row) (t : gmap string Row) :
  is_Some (t !! rid) ->
  key p <> rid ->
  is_Some (t !! key p) ->
  flat_request (crud_update table key rid p) t
  = (Raise (SQLAlchemyError (IntegrityError table (key p))), t).
Proof.
  intros [r Hr] Hne Htaken.
  unfold flat_request, crud_update, flat_then, flat_update.
  cbn. rewrite Hr. by rewrite decide_True.
Qed.

Lemma crud_delete_run (rid : string) (t : gmap string Row) :
  flat_request (@crud_delete Row rid) t = (Return tt, delete rid t).
Proof. done. Qed.

Lemma crud_list_run (t : gmap string Row) :
  flat_request (@crud_list Row) t = (Return (map_to_list t).*2, t).
Proof. done. Qed.

(** A create under a free id, then the reads. *)
Lemma crud_create_then_get (p : Row) (t : gmap string Row) :
  t !! key p = None ->
  exists t',
    flat_request (crud_create table key p) t = (Return p, t') /\
    flat_request (crud_get not_found (key p)) t' = (Return p, t') /\
    (forall rid, rid <> key p ->
       fst (flat_request (crud_get not_found rid) t')
       = fst (flat_request (crud_get not_found rid) t)) /\
    (exists rows rows',
       flat_request crud_list t = (Return rows, t) /\
       flat_request crud_list t' = (Return rows', t') /\
       rows' ≡ₚ p :: rows).
Proof.
  intros Hfree. exists (<[key p := p]> t).
  split; [by apply crud_create_fresh|]. split; [|split].
  - apply crud_get_stored, lookup_insert_eq.
  - intros rid Hne. unfold flat_request, crud_get. cbn.
    rewrite lookup_insert_ne by done. by destruct (t !! rid).
  - exists (map_to_list t).*2, (map_to_list (<[key p := p]> t)).*2.
    split; [done|]. split; [done|].
    by rewrite map_to_list_insert.
Qed.

(** A key that is taken: neither statement changes the table. *)
Lemma crud_key_taken (p : Row) (t : gmap string Row) :
  is_Some (t !! key p) ->
  flat_request (crud_create table key p) t
  = (Raise (SQLAlchemyError (IntegrityError table (key p))), t) /\
  (forall rid, is_Some (t !! rid) -> rid <> key p ->
     flat_request (crud_update table key rid p) t
     = (Raise (SQLAlchemyError (IntegrityError table (key p))), t)).
Proof.
  intros Htaken. split; [by apply crud_create_taken|].
  intros rid Hrid Hne. by apply crud_update_taken.
Qed.

(** An update of an id that is not stored. *)
Lemma crud_update_none (rid : string) (p : Row) (t : gmap string Row) :
  t !! rid = None ->
  flat_request (crud_update table key rid p) t = (Return p, t) /\
  flat_request (@crud_get Row not_found rid) t
  = (Raise (HTTPException 404 not_found), t).
Proof.
  intros Hr. split; [by apply crud_update_missing|by apply crud_get_missing].
Qed.

(** An update of a stored id: the row goes to the id of the body. *)
Lemma crud_update_moves (rid : string) (p : Row) (t : gmap string Row) :
  is_Some (t !! rid) ->
  key p = rid \/ t !! key p = None ->
  exists t',
    flat_request (crud_update table key rid p) t = (Return p, t') /\
    flat_request (crud_get not_found (key p)) t' = (Return p, t') /\
    (key p <> rid ->
       flat_request (@crud_get Row not_found rid) t'
       = (Raise (HTTPException 404 not_found), t')) /\
    (forall k, k <> rid -> k <> key p -> t' !! k = t !! k) /\
    size t' = size t.
Proof.
  intros Hrid Hfree. exists (<[key p := p]> (delete rid t)).
  split; [by apply crud_update_stored|]. split; [|split; [|split]].
  - apply crud_get_stored, lookup_insert_eq.
  - intros Hne. apply crud_get_missing.
    by rewrite lookup_insert_ne, lookup_delete_eq.
  - intros k Hk Hk'. by rewrite lookup_insert_ne, lookup_delete_ne.
  - destruct Hrid as [r Hr].
    destruct Hfree as [->|Hfree].
    + rewrite insert_delete_eq. rewrite map_size_insert_Some; [done|by eexists].
    + rewrite map_size_insert_None.
      * rewrite map_size_delete, Hr. cbn.
        assert (size t <> 0%nat); [|lia].
        intros Hz. apply map_size_empty_inv in Hz. subst t.
        by rewrite lookup_empty in Hr.
      * destruct (decide (key p = rid)) as [->|Hne];
          [apply lookup_delete_eq|by rewrite lookup_delete_ne].
Qed.

(** A delete always answers; the id is then not found, the other rows
    are kept, and a second delete changes nothing. *)
Lemma crud_delete_facts (rid : string) (t : gmap string Row) :
  exists t',
    flat_request (@crud_delete Row rid) t = (Return tt, t') /\
    flat_request (@crud_get Row not_found rid) t'
    = (Raise (HTTPException 404 not_found), t') /\
    (forall k, k <> rid -> t' !! k = t !! k) /\
    flat_request (@crud_delete Row rid) t' = (Return tt, t') /\
    (t !! rid = None -> t' = t).
Proof.
  exists (delete rid t). split; [done|]. split; [|split; [|split]].
  - apply crud_get_missing, lookup_delete_eq.
  - intros k Hk. by rewrite lookup_delete_ne.
  - by rewrite crud_delete_run, delete_delete_eq.
  - apply delete_id.
Qed.

(** The list has the stored rows, each once per id. *)
Lemma crud_list_facts (t : gmap string Row) :
  exists rows,
    flat_request (@crud_list Row) t = (Return rows, t) /\
    length rows = size t /\
    (forall r, r ∈ rows <-> exists k, t !! k = Some r).
Proof.
  exists (map_to_list t).*2. split; [done|]. split.
  - by rewrite length_fmap, length_map_to_list.
  - intros r. rewrite list_elem_of_fmap. split.
    + intros [[k r'] [-> Hin]]. exists k. by apply elem_of_map_to_list.
    + intros [k Hk]. exists (k, r). split; [done|]. by apply elem_of_map_to_list.
Qed.
End FlatFacts.

(** X13: a payment or a shipment created under an id that is not stored
    is answered with the body; the table then has that row, a read of
    that id answers with the body, the reads of the other ids answer as
    before, and the list is the list of before with the body added. *)
Theorem payment_shipment_create_then_get :
  (forall (float : Type) (p : PaymentIn float) (t : gmap string (PaymentIn float)),
     t !! pay_id p = None ->
     exists t',
       flat_request (create_payment p) t = (Return p, t') /\
       flat_request (get_payment (pay_id p)) t' = (Return p, t') /\
       (forall pid, pid <> pay_id p ->
          fst (flat_request (get_payment pid) t')
          = fst (flat_request (get_payment pid) t)) /\
       (exists rows rows',
          flat_request list_payments t = (Return rows, t) /\
          flat_request list_payments t' = (Return rows', t') /\
          rows' ≡ₚ p :: rows)) /\
  (forall (p : ShipmentIn) (t : gmap string ShipmentIn),
     t !! ship_id p = None ->
     exists t',
       flat_request (create_shipment p) t = (Return p, t') /\
       flat_request (get_shipment (ship_id p)) t' = (Return p, t') /\
       (forall sid, sid <> ship_id p ->
          fst (flat_request (get_shipment sid) t')
          = fst (flat_request (get_shipment sid) t)) /\
       (exists rows rows',
          flat_request list_shipments t = (Return rows, t) /\
          flat_request list_shipments t' = (Return rows', t') /\
          rows' ≡ₚ p :: rows)).
Proof.
  split; intros; by apply crud_create_then_get.
Qed.

Lemma payment_shipment_create_then_get_witness :
  (exists t',
     flat_request (create_payment (mkPayment "P1" "O1" 100 "paid")) ∅
     = (Return (mkPayment "P1" "O1" 100 "paid"), t') /\
     flat_request (get_payment "P1") t'
     = (Return (mkPayment "P1" "O1" 100 "paid"), t')) /\
  (exists t',
     flat_request (create_shipment (mkShipment "S1" "O1" [] [] "created")) ∅
     = (Return (mkShipment "S1" "O1" [] [] "created"), t') /\
     flat_request (get_shipment "S1") t'
     = (Return (mkShipment "S1" "O1" [] [] "created"), t')).
Proof.
  split.
  - destruct (proj1 payment_shipment_create_then_get Z
                (mkPayment "P1" "O1" 100 "paid") ∅ (lookup_empty _))
      as (t' & Hcreate & Hget & _).
    by exists t'.
  - destruct (proj2 payment_shipment_create_then_get
                (mkShipment "S1" "O1" [] [] "created") ∅ (lookup_empty _))
      as (t' & Hcreate & Hget & _).
    by exists t'.
Defined.

(** X14: when the id of the body is the id of a stored row, a create,
    and an update of another stored row, end in the integrity error of
    the database, which no handler catches, and the table is as
    before. *)
Theorem payment_shipment_taken_id_refused :
  (forall (float : Type) (p : PaymentIn float) (t : gmap string (PaymentIn float)),
     is_Some (t !! pay_id p) ->
     flat_request (create_payment p) t
     = (Raise (SQLAlchemyError (IntegrityError "payments" (pay_id p))), t) /\
     (forall pid, is_Some (t !! pid) -> pid <> pay_id p ->
        flat_request (update_payment pid p) t
        = (Raise (SQLAlchemyError (IntegrityError "payments" (pay_id p))), t))) /\
  (forall (p : ShipmentIn) (t : gmap string ShipmentIn),
     is_Some (t !! ship_id p) ->
     flat_request (create_shipment p) t
     = (Raise (SQLAlchemyError (IntegrityError "shipments" (ship_id p))), t) /\
     (forall sid, is_Some (t !! sid) -> sid <> ship_id p ->
        flat_request (update_shipment sid p) t
        = (Raise (SQLAlchemyError (IntegrityError "shipments" (ship_id p))), t))).
Proof.
  split; intros; by apply crud_key_taken.
Qed.

Lemma payment_shipment_taken_id_refused_witness :
  flat_request (create_payment (mkPayment "P1" "O2" 5 "failed"))
    {["P1" := mkPayment "P1" "O1" 100 "paid"]}
  = (Raise (SQLAlchemyError (IntegrityError "payments" "P1")),
     {["P1" := mkPayment "P1" "O1" 100 "paid"]}) /\
  flat_request (create_shipment (mkShipment "S1" "O2" [] [] "lost"))
    {["S1" := mkShipment "S1" "O1" [] [] "created"]}
  = (Raise (SQLAlchemyError (IntegrityError "shipments" "S1")),
     {["S1" := mkShipment "S1" "O1" [] [] "created"]}).
Proof.
  split.
  - apply (proj1 payment_shipment_taken_id_refused Z
             (mkPayment "P1" "O2" 5 "failed")
             {["P1" := mkPayment "P1" "O1" 100 "paid"]}).
    rewrite lookup_singleton_eq. by eexists.
  - apply (proj2 payment_shipment_taken_id_refused
             (mkShipment "S1" "O2" [] [] "lost")
             {["S1" := mkShipment "S1" "O1" [] [] "created"]}).
    rewrite lookup_singleton_eq. by eexists.
Defined.

(** X15: an update of an id that is not stored is answered with the
    body, as a success, and stores nothing: the table is as before and
    a read of that id is still answered with 404. *)
Theorem payment_shipment_update_missing_id :
  (forall (float : Type) (pid : string) (p : PaymentIn float)
          (t : gmap string (PaymentIn float)),
     t !! pid = None ->
     flat_request (update_payment pid p) t = (Return p, t) /\
     flat_request (@get_payment float pid) t
     = (Raise (HTTPException 404 "payment not found"), t)) /\
  (forall (sid : string) (p : ShipmentIn) (t : gmap string ShipmentIn),
     t !! sid = None ->
     flat_request (update_shipment sid p) t = (Return p, t) /\
     flat_request (get_shipment sid) t
     = (Raise (HTTPException 404 "shipment not found"), t)).
Proof.
  split; intros; by apply crud_update_none.
Qed.

Lemma payment_shipment_update_missing_id_witness :
  flat_request (update_payment "P1" (mkPayment "P1" "O1" 100 "paid")) ∅
  = (Return (mkPayment "P1" "O1" 100 "paid"), ∅) /\
  flat_request (update_shipment "S1" (mkShipment "S1" "O1" [] [] "created")) ∅
  = (Return (mkShipment "S1" "O1" [] [] "created"), ∅).
Proof.
  split.
  - apply (proj1 payment_shipment_update_missing_id Z "P1"
             (mkPayment "P1" "O1" 100 "paid") ∅ (lookup_empty _)).
  - apply (proj2 payment_shipment_update_missing_id "S1"
             (mkShipment "S1" "O1" [] [] "created") ∅ (lookup_empty _)).
Defined.

(** X16: an update of a stored id, with a body whose id is that id or
    is not stored, is answered with the body and replaces the row by the
    body, stored under the id of the body: a read of the id of the body
    answers with the body, the id of the path is no longer found when
    the two ids differ, the other rows are kept and the number of rows
    is as before. *)
Theorem payment_shipment_update_moves_row :
  (forall (float : Type) (pid : string) (p : PaymentIn float)
          (t : gmap string (PaymentIn float)),
     is_Some (t !! pid) ->
     pay_id p = pid \/ t !! pay_id p = None ->
     exists t',
       flat_request (update_payment pid p) t = (Return p, t') /\
       flat_request (get_payment (pay_id p)) t' = (Return p, t') /\
       (pay_id p <> pid ->
          flat_request (@get_payment float pid) t'
          = (Raise (HTTPException 404 "payment not found"), t')) /\
       (forall k, k <> pid -> k <> pay_id p -> t' !! k = t !! k) /\
       size t' = size t) /\
  (forall (sid : string) (p : ShipmentIn) (t : gmap string ShipmentIn),
     is_Some (t !! sid) ->
     ship_id p = sid \/ t !! ship_id p = None ->
     exists t',
       flat_request (update_shipment sid p) t = (Return p, t') /\
       flat_request (get_shipment (ship_id p)) t' = (Return p, t') /\
       (ship_id p <> sid ->
          flat_request (get_shipment sid) t'
          = (Raise (HTTPException 404 "shipment not found"), t')) /\
       (forall k, k <> sid -> k <> ship_id p -> t' !! k = t !! k) /\
       size t' = size t).
Proof.
  split; intros; by apply crud_update_moves.
Qed.

Lemma payment_shipment_update_moves_row_witness :
  (exists t',
     flat_request (update_payment "P1" (mkPayment "P2" "O1" 100 "refunded"))
       {["P1" := mkPayment "P1" "O1" 100 "paid"]}
     = (Return (mkPayment "P2" "O1" 100 "refunded"), t') /\
     flat_request (get_payment "P2") t'
     = (Return (mkPayment "P2" "O1" 100 "refunded"), t') /\
     flat_request (get_payment "P1") t'
     = (Raise (HTTPException 404 "payment not found"), t')) /\
  (exists t',
     flat_request (update_shipment "S1" (mkShipment "S1" "O1" [] [] "delivered"))
       {["S1" := mkShipment "S1" "O1" [] [] "created"]}
     = (Return (mkShipment "S1" "O1" [] [] "delivered"), t') /\
     flat_request (get_shipment "S1") t'
     = (Return (mkShipment "S1" "O1" [] [] "delivered"), t')).
Proof.
  split.
  - destruct (proj1 payment_shipment_update_moves_row Z "P1"
                (mkPayment "P2" "O1" 100 "refunded")
                {["P1" := mkPayment "P1" "O1" 100 "paid"]})
      as (t' & Hupdate & Hget & Hgone & _).
    + rewrite lookup_singleton_eq. by eexists.
    + right. by apply lookup_singleton_ne.
    + exists t'. split; [exact Hupdate|]. split; [exact Hget|].
      by apply Hgone.
  - destruct (proj2 payment_shipment_update_moves_row "S1"
                (mkShipment "S1" "O1" [] [] "delivered")
                {["S1" := mkShipment "S1" "O1" [] [] "created"]})
      as (t' & Hupdate & Hget & _).
    + rewrite lookup_singleton_eq. by eexists.
    + by left.
    + by exists t'.
Defined.

(** X17: a delete of a payment or of a shipment is always answered,
    whether the id is stored or not; afterwards a read of that id is
    answered with 404, the other rows are kept, a second delete changes
    nothing, and a delete of an id that is not stored changes
    nothing. *)
Theorem payment_shipment_delete_idempotent :
  (forall (float : Type) (pid : string) (t : gmap string (PaymentIn float)),
     exists t',
       flat_request (delete_payment pid) t = (Return tt, t') /\
       flat_request (@get_payment float pid) t'
       = (Raise (HTTPException 404 "payment not found"), t') /\
       (forall k, k <> pid -> t' !! k = t !! k) /\
       flat_request (delete_payment pid) t' = (Return tt, t') /\
       (t !! pid = None -> t' = t)) /\
  (forall (sid : string) (t : gmap string ShipmentIn),
     exists t',
       flat_request (delete_shipment sid) t = (Return tt, t') /\
       flat_request (get_shipment sid) t'
       = (Raise (HTTPException 404 "shipment not found"), t') /\
       (forall k, k <> sid -> t' !! k = t !! k) /\
       flat_request (delete_shipment sid) t' = (Return tt, t') /\
       (t !! sid = None -> t' = t)).
Proof.
  split; intros; apply crud_delete_facts.
Qed.

(** X18: the list of payments, and of shipments, is answered with the
    stored rows and nothing else: as many items as ids stored, and a row
    is on the list exactly when it is stored under some id; the table is
    as before. *)
Theorem payment_shipment_list_rows :
  (forall (float : Type) (t : gmap string (PaymentIn float)),
     exists rows,
       flat_request list_payments t = (Return rows, t) /\
       length rows = size t /\
       (forall r, r ∈ rows <-> exists k, t !! k = Some r)) /\
  (forall (t : gmap string ShipmentIn),
     exists rows,
       flat_request list_shipments t = (Return rows, t) /\
       length rows = size t /\
       (forall r, r ∈ rows <-> exists k, t !! k = Some r)).
Proof.
  split; intros; apply crud_list_facts.
Qed.
